(** * Lesson 2 / cg_proj1: a window with one white rectangle

    A shallow embedding of [src/Lesson 2/cg_proj1/main.cpp].  The program is a
    straight sequence of calls into GLFW, GLEW and OpenGL followed by a render
    loop, so it is modelled as a state-and-trace monad:

    - every library call the program makes is appended, with its arguments, to
      a [trace];
    - what the libraries answer (handles, statuses, info logs, the events
      delivered by each poll) is read from an environment [Env];
    - the part of the library state that the program can observe again later
      (close flag, key states, registered callback, viewport) lives in [Sys];
    - the render loop is a [Fixpoint] on a fuel argument that bounds the
      number of loop-condition checks; running out of it is the outcome
      [OutOfFuel], which keeps the trace produced so far.

    A float literal of the source is kept as the rational its decimal text
    denotes.  The coordinates -0.5, 0.5 and 0.0 are binary32 values, so
    nothing is lost on them; the rounding of 0.15 is not modelled. *)

From Stdlib Require Import ZArith QArith String Ascii List Bool Lia Lqa.
Import ListNotations.

Local Open Scope string_scope.
Local Open Scope list_scope.
Local Open Scope Z_scope.

(* ------------------------------------------------------------------ *)
(** ** Constants of the library headers *)

Module Const.
(* GLFW/glfw3.h *)
Definition GLFW_TRUE : Z := 1.
Definition GLFW_FALSE : Z := 0.
Definition GLFW_RELEASE : Z := 0.
Definition GLFW_PRESS : Z := 1.
Definition GLFW_KEY_ESCAPE : Z := 256.
Definition GLFW_CONTEXT_VERSION_MAJOR : Z := 0x00022002.
Definition GLFW_CONTEXT_VERSION_MINOR : Z := 0x00022003.
Definition GLFW_OPENGL_FORWARD_COMPAT : Z := 0x00022006.
Definition GLFW_OPENGL_PROFILE : Z := 0x00022008.
Definition GLFW_OPENGL_CORE_PROFILE : Z := 0x00032001.
(* GL/glew.h *)
Definition GLEW_OK : Z := 0.
Definition GL_FALSE : Z := 0.
Definition GL_TRUE : Z := 1.
Definition GL_TRIANGLES : Z := 0x0004.
Definition GL_FLOAT : Z := 0x1406.
Definition GL_COLOR_BUFFER_BIT : Z := 0x00004000.
Definition GL_ARRAY_BUFFER : Z := 0x8892.
Definition GL_STATIC_DRAW : Z := 0x88E4.
Definition GL_FRAGMENT_SHADER : Z := 0x8B30.
Definition GL_VERTEX_SHADER : Z := 0x8B31.
Definition GL_COMPILE_STATUS : Z := 0x8B81.
Definition GL_LINK_STATUS : Z := 0x8B82.
(* the null pointer and the size of a float *)
Definition NULL : Z := 0.
Definition sizeof_float : Z := 4.
End Const.
Export Const.

(** The line feed that the source writes as a backslash-n escape and that
    [std::endl] emits. *)
Definition nl : string := String "010"%char EmptyString.

(* ------------------------------------------------------------------ *)
(** ** Calls, events, library state *)

(** The functions of this program that are handed to a library as a function
    pointer.  There is one: [framebuffer_size_callback]. *)
Inductive callback : Type :=
| cb_framebuffer_size_callback.

(** One constructor per library function the program calls, carrying the
    arguments of the call.  Out-parameters are left out. *)
Inductive call : Type :=
| C_glfwInit
| C_glfwWindowHint (hint value : Z)
| C_glfwCreateWindow (width height : Z) (title : string) (monitor share : Z)
| C_glfwTerminate
| C_glfwMakeContextCurrent (window : Z)
| C_glfwSetFramebufferSizeCallback (window : Z) (cb : callback)
| C_glewInit
| C_glCreateShader (kind : Z)
| C_glShaderSource (shader count : Z) (source : string) (length : Z)
| C_glCompileShader (shader : Z)
| C_glGetShaderiv (shader pname : Z)
| C_glGetShaderInfoLog (shader maxLength : Z)
| C_glCreateProgram
| C_glAttachShader (program shader : Z)
| C_glLinkProgram (program : Z)
| C_glGetProgramiv (program pname : Z)
| C_glGetProgramInfoLog (program maxLength : Z)
| C_glDeleteShader (shader : Z)
| C_glGenVertexArrays (n : Z)
| C_glGenBuffers (n : Z)
| C_glBindVertexArray (array : Z)
| C_glBindBuffer (target buffer : Z)
| C_glBufferData (target size : Z) (data : list Q) (usage : Z)
| C_glVertexAttribPointer (index size type normalized stride pointer : Z)
| C_glEnableVertexAttribArray (index : Z)
| C_glfwWindowShouldClose (window : Z)
| C_glfwGetKey (window key : Z)
| C_glfwSetWindowShouldClose (window value : Z)
| C_glClearColor (red green blue alpha : Q)
| C_glClear (mask : Z)
| C_glUseProgram (program : Z)
| C_glDrawArrays (mode first count : Z)
| C_glfwSwapBuffers (window : Z)
| C_glfwPollEvents
| C_glViewport (x y width height : Z)
| C_glDeleteVertexArrays (n array : Z)
| C_glDeleteBuffers (n buffer : Z)
| C_glDeleteProgram (program : Z).

(** What one [glfwPollEvents] can deliver to the window. *)
Inductive event : Type :=
| EvKey (key action : Z)
| EvFramebufferSize (width height : Z)
| EvClose.

(** Library state the program observes or changes. *)
Record Sys : Type := mkSys {
  glfw_ready : bool;              (* glfwInit succeeded, not yet terminated *)
  the_window : Z;                 (* the window created, NULL when none *)
  should_close : Z;               (* the window's close flag *)
  key_state : Z -> Z;             (* last reported action per key *)
  fb_callback : option callback;  (* registered framebuffer-size callback *)
  framebuffer : Z * Z;            (* current framebuffer size *)
  viewport : Z * Z * Z * Z;       (* x, y, width, height *)
  glewExperimental : Z;
  polls : nat                     (* number of glfwPollEvents so far *)
}.

Record World : Type := mkWorld {
  trace : list call;
  stdout : string;
  stderr : string;
  sys : Sys
}.

(** The answers of the libraries and of the outside world. *)
Record Env : Type := mkEnv {
  apple : bool;                       (* __APPLE__ is defined *)
  glfwInit_result : Z;
  window_ptr : Z;                     (* glfwCreateWindow, once initialised *)
  initial_framebuffer : Z * Z;
  glewInit_result : Z;
  create_shader : Z -> Z;             (* by shader kind *)
  shader_iv : Z -> Z -> Z;            (* by shader and parameter name *)
  shader_info_log : Z -> string;
  create_program : Z;
  program_iv : Z -> Z -> Z;
  program_info_log : Z -> string;
  gen_vertex_array : Z;
  gen_buffer : Z;
  events : nat -> list event          (* delivered by the n-th poll *)
}.

Definition sys0 : Sys :=
  {| glfw_ready := false; the_window := NULL; should_close := 0;
     key_state := fun _ => GLFW_RELEASE; fb_callback := None;
     framebuffer := (0, 0); viewport := (0, 0, 0, 0);
     glewExperimental := GL_FALSE; polls := O |}.

(** The world in which the process starts. *)
Definition w0 : World :=
  {| trace := []; stdout := ""; stderr := ""; sys := sys0 |}.

Module Upd.
Definition ready (b : bool) (s : Sys) : Sys :=
  mkSys b (the_window s) (should_close s) (key_state s) (fb_callback s)
        (framebuffer s) (viewport s) (glewExperimental s) (polls s).
Definition window (p : Z) (s : Sys) : Sys :=
  mkSys (glfw_ready s) p (should_close s) (key_state s) (fb_callback s)
        (framebuffer s) (viewport s) (glewExperimental s) (polls s).
Definition close (v : Z) (s : Sys) : Sys :=
  mkSys (glfw_ready s) (the_window s) v (key_state s) (fb_callback s)
        (framebuffer s) (viewport s) (glewExperimental s) (polls s).
Definition key (k a : Z) (s : Sys) : Sys :=
  mkSys (glfw_ready s) (the_window s) (should_close s)
        (fun k' => if k' =? k then a else key_state s k') (fb_callback s)
        (framebuffer s) (viewport s) (glewExperimental s) (polls s).
Definition fbcallback (c : option callback) (s : Sys) : Sys :=
  mkSys (glfw_ready s) (the_window s) (should_close s) (key_state s) c
        (framebuffer s) (viewport s) (glewExperimental s) (polls s).
Definition fb (d : Z * Z) (s : Sys) : Sys :=
  mkSys (glfw_ready s) (the_window s) (should_close s) (key_state s)
        (fb_callback s) d (viewport s) (glewExperimental s) (polls s).
Definition view (v : Z * Z * Z * Z) (s : Sys) : Sys :=
  mkSys (glfw_ready s) (the_window s) (should_close s) (key_state s)
        (fb_callback s) (framebuffer s) v (glewExperimental s) (polls s).
Definition experimental (v : Z) (s : Sys) : Sys :=
  mkSys (glfw_ready s) (the_window s) (should_close s) (key_state s)
        (fb_callback s) (framebuffer s) (viewport s) v (polls s).
Definition polled (s : Sys) : Sys :=
  mkSys (glfw_ready s) (the_window s) (should_close s) (key_state s)
        (fb_callback s) (framebuffer s) (viewport s) (glewExperimental s)
        (S (polls s)).
End Upd.

(* ------------------------------------------------------------------ *)
(** ** The monad *)

Inductive result (A : Type) : Type :=
| Done (a : A)
| OutOfFuel.
Arguments Done {A} a.
Arguments OutOfFuel {A}.

Definition M (A : Type) : Type := World -> result A * World.

Definition ret {A} (a : A) : M A := fun w => (Done a, w).

Definition bind {A B} (m : M A) (f : A -> M B) : M B :=
  fun w => match m w with
           | (Done a, w') => f a w'
           | (OutOfFuel, w') => (OutOfFuel, w')
           end.

Definition timeout {A} : M A := fun w => (OutOfFuel, w).

Definition emit (c : call) : M unit :=
  fun w => (Done tt, mkWorld (trace w ++ [c]) (stdout w) (stderr w) (sys w)).

Definition gets {A} (f : Sys -> A) : M A := fun w => (Done (f (sys w)), w).

Definition modify (f : Sys -> Sys) : M unit :=
  fun w => (Done tt, mkWorld (trace w) (stdout w) (stderr w) (f (sys w))).

(** [std::cout << s]. *)
Definition cout (s : string) : M unit :=
  fun w => (Done tt, mkWorld (trace w) (stdout w ++ s)%string (stderr w) (sys w)).

Definition value {A} (m : M A) (w : World) : result A := fst (m w).
Definition exec {A} (m : M A) (w : World) : World := snd (m w).

Declare Scope prog_scope.
Delimit Scope prog_scope with prog.
Notation "x <- m ;; k" := (bind m (fun x => k))
  (at level 61, m at next level, right associativity) : prog_scope.
Notation "m ;; k" := (bind m (fun _ => k))
  (at level 61, right associativity) : prog_scope.
Local Open Scope prog_scope.

(* ------------------------------------------------------------------ *)
(** ** GLFW, GLEW and OpenGL as the program uses them *)

Section Program.

Variable env : Env.

Definition glfwInit : M Z :=
  emit C_glfwInit ;;
  modify (Upd.ready (negb (glfwInit_result env =? GLFW_FALSE))) ;;
  ret (glfwInit_result env).

Definition glfwWindowHint (hint value : Z) : M unit :=
  emit (C_glfwWindowHint hint value).

(** Returns NULL when the library is not initialised, and otherwise what the
    driver answers, which is NULL when it cannot honour the request. *)
Definition glfwCreateWindow (width height : Z) (title : string)
    (monitor share : Z) : M Z :=
  emit (C_glfwCreateWindow width height title monitor share) ;;
  ready <- gets glfw_ready ;;
  if ready then
    modify (Upd.window (window_ptr env)) ;;
    modify (Upd.fb (initial_framebuffer env)) ;;
    ret (window_ptr env)
  else ret NULL.

(** Destroys the window with its context and its callbacks: afterwards
    there is no window, no registered callback, no framebuffer and no
    viewport.  The close flag and the key states keep the last value the
    window had. *)
Definition glfwTerminate : M unit :=
  emit C_glfwTerminate ;;
  modify (Upd.ready false) ;;
  modify (Upd.window NULL) ;;
  modify (Upd.fbcallback None) ;;
  modify (Upd.fb (0, 0)) ;;
  modify (Upd.view (0, 0, 0, 0)).

(** A fresh context starts with the viewport on the whole framebuffer. *)
Definition glfwMakeContextCurrent (window : Z) : M unit :=
  emit (C_glfwMakeContextCurrent window) ;;
  d <- gets framebuffer ;;
  modify (Upd.view (0, 0, fst d, snd d)).

Definition glfwSetFramebufferSizeCallback (window : Z) (cb : callback) : M unit :=
  emit (C_glfwSetFramebufferSizeCallback window cb) ;;
  modify (Upd.fbcallback (Some cb)).

Definition glfwWindowShouldClose (window : Z) : M Z :=
  emit (C_glfwWindowShouldClose window) ;;
  gets should_close.

Definition glfwSetWindowShouldClose (window value : Z) : M unit :=
  emit (C_glfwSetWindowShouldClose window value) ;;
  modify (Upd.close value).

Definition glfwGetKey (window key : Z) : M Z :=
  emit (C_glfwGetKey window key) ;;
  gets (fun s => key_state s key).

Definition glfwSwapBuffers (window : Z) : M unit :=
  emit (C_glfwSwapBuffers window).

Definition glewInit : M Z :=
  emit C_glewInit ;;
  ret (glewInit_result env).

(** A negative width or height is an error that leaves the viewport as it
    was. *)
Definition glViewport (x y width height : Z) : M unit :=
  emit (C_glViewport x y width height) ;;
  if (width <? 0) || (height <? 0) then ret tt
  else modify (Upd.view (x, y, width, height)).

Definition glCreateShader (kind : Z) : M Z :=
  emit (C_glCreateShader kind) ;;
  ret (create_shader env kind).

Definition glShaderSource (shader count : Z) (source : string) (length : Z)
  : M unit :=
  emit (C_glShaderSource shader count source length).

Definition glCompileShader (shader : Z) : M unit :=
  emit (C_glCompileShader shader).

Definition glGetShaderiv (shader pname : Z) : M Z :=
  emit (C_glGetShaderiv shader pname) ;;
  ret (shader_iv env shader pname).

(** Writes at most [maxLength - 1] characters of the log and a terminator. *)
Definition glGetShaderInfoLog (shader maxLength : Z) : M string :=
  emit (C_glGetShaderInfoLog shader maxLength) ;;
  ret (substring 0 (Z.to_nat (maxLength - 1)) (shader_info_log env shader)).

Definition glCreateProgram : M Z :=
  emit C_glCreateProgram ;;
  ret (create_program env).

Definition glAttachShader (program shader : Z) : M unit :=
  emit (C_glAttachShader program shader).

Definition glLinkProgram (program : Z) : M unit :=
  emit (C_glLinkProgram program).

Definition glGetProgramiv (program pname : Z) : M Z :=
  emit (C_glGetProgramiv program pname) ;;
  ret (program_iv env program pname).

Definition glGetProgramInfoLog (program maxLength : Z) : M string :=
  emit (C_glGetProgramInfoLog program maxLength) ;;
  ret (substring 0 (Z.to_nat (maxLength - 1)) (program_info_log env program)).

Definition glDeleteShader (shader : Z) : M unit :=
  emit (C_glDeleteShader shader).

Definition glGenVertexArrays (n : Z) : M Z :=
  emit (C_glGenVertexArrays n) ;;
  ret (gen_vertex_array env).

Definition glGenBuffers (n : Z) : M Z :=
  emit (C_glGenBuffers n) ;;
  ret (gen_buffer env).

Definition glBindVertexArray (array : Z) : M unit :=
  emit (C_glBindVertexArray array).

Definition glBindBuffer (target buffer : Z) : M unit :=
  emit (C_glBindBuffer target buffer).

Definition glBufferData (target size : Z) (data : list Q) (usage : Z) : M unit :=
  emit (C_glBufferData target size data usage).

Definition glVertexAttribPointer
    (index size type normalized stride pointer : Z) : M unit :=
  emit (C_glVertexAttribPointer index size type normalized stride pointer).

Definition glEnableVertexAttribArray (index : Z) : M unit :=
  emit (C_glEnableVertexAttribArray index).

Definition glClearColor (red green blue alpha : Q) : M unit :=
  emit (C_glClearColor red green blue alpha).

Definition glClear (mask : Z) : M unit :=
  emit (C_glClear mask).

Definition glUseProgram (program : Z) : M unit :=
  emit (C_glUseProgram program).

Definition glDrawArrays (mode first count : Z) : M unit :=
  emit (C_glDrawArrays mode first count).

Definition glDeleteVertexArrays (n array : Z) : M unit :=
  emit (C_glDeleteVertexArrays n array).

Definition glDeleteBuffers (n buffer : Z) : M unit :=
  emit (C_glDeleteBuffers n buffer).

Definition glDeleteProgram (program : Z) : M unit :=
  emit (C_glDeleteProgram program).

(* ------------------------------------------------------------------ *)
(** ** The program: main.cpp *)

(* Window settings, lines 10-11 *)
Definition SCR_WIDTH : Z := 800.
Definition SCR_HEIGHT : Z := 600.

(* lines 17-22; the string ends at the explicit terminator *)
Definition vertexShaderSource : string :=
  ("#version 330 core" ++ nl ++
   "layout (location = 0) in vec3 aPos;" ++ nl ++
   "void main()" ++ nl ++
   "{" ++ nl ++
   "   gl_Position = vec4(aPos.x, aPos.y, aPos.z, 1.0);" ++ nl ++
   "}")%string.

(* lines 26-31 *)
Definition fragmentShaderSource : string :=
  ("#version 330 core" ++ nl ++
   "out vec4 FragColor;" ++ nl ++
   "void main()" ++ nl ++
   "{" ++ nl ++
   "   FragColor = vec4(1.0f, 1.0f, 1.0f, 1.0f);" ++ nl ++
   "}" ++ nl)%string.

(* lines 34-37 *)
Definition framebuffer_size_callback (window width height : Z) : M unit :=
  glViewport 0 0 width height.

(** Calling through a registered function pointer. *)
Definition invoke (cb : callback) (window width height : Z) : M unit :=
  match cb with
  | cb_framebuffer_size_callback => framebuffer_size_callback window width height
  end.

(** What GLFW does with one event: a key event updates the key's state, a
    resize updates the framebuffer size and calls the registered callback, a
    close request sets the close flag. *)
Definition deliver (ev : event) : M unit :=
  match ev with
  | EvKey key action => modify (Upd.key key action)
  | EvFramebufferSize width height =>
      modify (Upd.fb (width, height)) ;;
      cb <- gets fb_callback ;;
      match cb with
      | Some f => window <- gets the_window ;; invoke f window width height
      | None => ret tt
      end
  | EvClose => modify (Upd.close GLFW_TRUE)
  end.

Fixpoint dispatch (evs : list event) : M unit :=
  match evs with
  | [] => ret tt
  | ev :: evs' => deliver ev ;; dispatch evs'
  end.

Definition glfwPollEvents : M unit :=
  emit C_glfwPollEvents ;;
  n <- gets polls ;;
  modify Upd.polled ;;
  dispatch (events env n).

(* lines 40-44 *)
Definition processInput (window : Z) : M unit :=
  k <- glfwGetKey window GLFW_KEY_ESCAPE ;;
  if k =? GLFW_PRESS then glfwSetWindowShouldClose window 1
  else ret tt.

(* lines 125-133 *)
Definition vertices : list Q :=
  [ -0.5; -0.5; 0.0;
     0.5; -0.5; 0.0;
     0.5;  0.5; 0.0;

     0.5;  0.5; 0.0;
    -0.5;  0.5; 0.0;
    -0.5; -0.5; 0.0 ]%Q.

Definition sizeof_vertices : Z := Z.of_nat (length vertices) * sizeof_float.

(* lines 80-122: returns shaderProgram *)
Definition build_shader_program : M Z :=
  vertexShader <- glCreateShader GL_VERTEX_SHADER ;;
  glShaderSource vertexShader 1 vertexShaderSource NULL ;;
  glCompileShader vertexShader ;;
  success <- glGetShaderiv vertexShader GL_COMPILE_STATUS ;;
  (if success =? 0 then
     infoLog <- glGetShaderInfoLog vertexShader 512 ;;
     cout ("ERROR::SHADER::VERTEX::COMPILATION_FAILED" ++ nl)%string ;;
     cout infoLog ;; cout nl
   else ret tt) ;;
  fragmentShader <- glCreateShader GL_FRAGMENT_SHADER ;;
  glShaderSource fragmentShader 1 fragmentShaderSource NULL ;;
  glCompileShader fragmentShader ;;
  success <- glGetShaderiv fragmentShader GL_COMPILE_STATUS ;;
  (if success =? 0 then
     infoLog <- glGetShaderInfoLog fragmentShader 512 ;;
     cout ("ERROR::SHADER::FRAGMENT::COMPILATION_FAILED" ++ nl)%string ;;
     cout infoLog ;; cout nl
   else ret tt) ;;
  shaderProgram <- glCreateProgram ;;
  glAttachShader shaderProgram vertexShader ;;
  glAttachShader shaderProgram fragmentShader ;;
  glLinkProgram shaderProgram ;;
  success <- glGetProgramiv shaderProgram GL_LINK_STATUS ;;
  (if success =? 0 then
     infoLog <- glGetProgramInfoLog shaderProgram 512 ;;
     cout ("ERROR::SHADER::PROGRAM::LINKING_FAILED" ++ nl)%string ;;
     cout infoLog ;; cout nl
   else ret tt) ;;
  glDeleteShader vertexShader ;;
  glDeleteShader fragmentShader ;;
  ret shaderProgram.

(* lines 136-159: returns (VBO, VAO) *)
Definition setup_geometry : M (Z * Z) :=
  VAO <- glGenVertexArrays 1 ;;
  VBO <- glGenBuffers 1 ;;
  glBindVertexArray VAO ;;
  glBindBuffer GL_ARRAY_BUFFER VBO ;;
  glBufferData GL_ARRAY_BUFFER sizeof_vertices vertices GL_STATIC_DRAW ;;
  glVertexAttribPointer 0 3 GL_FLOAT GL_FALSE (3 * sizeof_float) 0 ;;
  glEnableVertexAttribArray 0 ;;
  glBindBuffer GL_ARRAY_BUFFER 0 ;;
  glBindVertexArray 0 ;;
  ret (VBO, VAO).

(* lines 164-178: the body of the while loop *)
Definition render_loop_body (window shaderProgram VAO : Z) : M unit :=
  processInput window ;;
  glClearColor 0.15 0.15 0.15 1.0 ;;
  glClear GL_COLOR_BUFFER_BIT ;;
  glUseProgram shaderProgram ;;
  glBindVertexArray VAO ;;
  glDrawArrays GL_TRIANGLES 0 6 ;;
  glfwSwapBuffers window ;;
  glfwPollEvents.

(* lines 162-179; [fuel] bounds the number of condition checks *)
Fixpoint render_loop (fuel : nat) (window shaderProgram VAO : Z) : M unit :=
  match fuel with
  | O => timeout
  | S fuel' =>
      c <- glfwWindowShouldClose window ;;
      if c =? 0 then
        render_loop_body window shaderProgram VAO ;;
        render_loop fuel' window shaderProgram VAO
      else ret tt
  end.

(* lines 182-184 *)
Definition final_cleanup (shaderProgram VBO VAO : Z) : M unit :=
  glDeleteVertexArrays 1 VAO ;;
  glDeleteBuffers 1 VBO ;;
  glDeleteProgram shaderProgram.

(* lines 46-188 *)
Definition main (fuel : nat) : M Z :=
  _ <- glfwInit ;;
  glfwWindowHint GLFW_CONTEXT_VERSION_MAJOR 3 ;;
  glfwWindowHint GLFW_CONTEXT_VERSION_MINOR 3 ;;
  glfwWindowHint GLFW_OPENGL_PROFILE GLFW_OPENGL_CORE_PROFILE ;;
  (if apple env then glfwWindowHint GLFW_OPENGL_FORWARD_COMPAT GL_TRUE
   else ret tt) ;;
  window <- glfwCreateWindow SCR_WIDTH SCR_HEIGHT
              "LearnOpenGL - First Triangle" NULL NULL ;;
  if window =? NULL then
    cout "Failed to create GLFW window" ;; cout nl ;;
    glfwTerminate ;;
    ret (-1)
  else
    glfwMakeContextCurrent window ;;
    glfwSetFramebufferSizeCallback window cb_framebuffer_size_callback ;;
    modify (Upd.experimental GL_TRUE) ;;
    r <- glewInit ;;
    if negb (r =? GLEW_OK) then
      cout "Failed to initialize GLEW" ;; cout nl ;;
      ret (-1)
    else
      shaderProgram <- build_shader_program ;;
      geometry <- setup_geometry ;;
      let (VBO, VAO) := geometry in
      render_loop fuel window shaderProgram VAO ;;
      final_cleanup shaderProgram VBO VAO ;;
      glfwTerminate ;;
      ret 0.

End Program.

(* ------------------------------------------------------------------ *)
(** ** Vocabulary of the statements

    Nothing below is part of the program.  These definitions name the calls
    a phase of [main] makes, the worlds it passes through, sample
    environments, and the notions the properties are stated with. *)

(** *** Calls and worlds of a run *)

(** The calls a program adds to the trace. *)
Definition calls_of {A} (m : M A) (w : World) : list call :=
  skipn (length (trace w)) (trace (exec m w)).

(** The calls made on behalf of one event by the registered callback. *)
Definition event_calls (cb : option callback) (ev : event) : list call :=
  match ev, cb with
  | EvFramebufferSize width height, Some cb_framebuffer_size_callback =>
      [C_glViewport 0 0 width height]
  | _, _ => []
  end.

(** Whether [glfwGetKey] reports Escape as pressed. *)
Definition escape_down (s : Sys) : bool :=
  key_state s GLFW_KEY_ESCAPE =? GLFW_PRESS.

(** The calls of one iteration up to and including the poll. *)
Definition frame_calls (pressed : bool) (window shaderProgram VAO : Z)
  : list call :=
  C_glfwGetKey window GLFW_KEY_ESCAPE ::
  (if pressed then [C_glfwSetWindowShouldClose window 1] else []) ++
  [C_glClearColor 0.15 0.15 0.15 1.0; C_glClear GL_COLOR_BUFFER_BIT;
   C_glUseProgram shaderProgram; C_glBindVertexArray VAO;
   C_glDrawArrays GL_TRIANGLES 0 6;
   C_glfwSwapBuffers window; C_glfwPollEvents].

(** The condition check followed by the body. *)
Definition loop_step (env : Env) (window shaderProgram VAO : Z) (w : World)
  : World :=
  exec (render_loop_body env window shaderProgram VAO)
       (exec (glfwWindowShouldClose window) w).

(** The world after [n] full turns of the loop. *)
Fixpoint iterate (env : Env) (window shaderProgram VAO : Z) (n : nat)
    (w : World) : World :=
  match n with
  | O => w
  | S n' => iterate env window shaderProgram VAO n'
              (loop_step env window shaderProgram VAO w)
  end.

Definition title : string := "LearnOpenGL - First Triangle".

Definition hint_calls (env : Env) : list call :=
  [C_glfwWindowHint GLFW_CONTEXT_VERSION_MAJOR 3;
   C_glfwWindowHint GLFW_CONTEXT_VERSION_MINOR 3;
   C_glfwWindowHint GLFW_OPENGL_PROFILE GLFW_OPENGL_CORE_PROFILE] ++
  (if apple env then [C_glfwWindowHint GLFW_OPENGL_FORWARD_COMPAT GL_TRUE]
   else []).

(** Everything up to and including the request for a window. *)
Definition startup_calls (env : Env) : list call :=
  C_glfwInit :: hint_calls env ++
  [C_glfwCreateWindow SCR_WIDTH SCR_HEIGHT title NULL NULL].

(** [glfwCreateWindow] returns a window. *)
Definition creates_window (env : Env) : bool :=
  negb (glfwInit_result env =? GLFW_FALSE) && negb (window_ptr env =? NULL).

(** [glewInit] returns [GLEW_OK]. *)
Definition loader_ok (env : Env) : bool := glewInit_result env =? GLEW_OK.

Definition context_calls (env : Env) : list call :=
  [C_glfwMakeContextCurrent (window_ptr env);
   C_glfwSetFramebufferSizeCallback (window_ptr env) cb_framebuffer_size_callback;
   C_glewInit].

Definition stage_calls (env : Env) (kind : Z) (source : string) : list call :=
  let shader := create_shader env kind in
  [C_glCreateShader kind; C_glShaderSource shader 1 source NULL;
   C_glCompileShader shader; C_glGetShaderiv shader GL_COMPILE_STATUS] ++
  (if shader_iv env shader GL_COMPILE_STATUS =? 0
   then [C_glGetShaderInfoLog shader 512] else []).

Definition link_calls (env : Env) : list call :=
  let vertexShader := create_shader env GL_VERTEX_SHADER in
  let fragmentShader := create_shader env GL_FRAGMENT_SHADER in
  let shaderProgram := create_program env in
  [C_glCreateProgram; C_glAttachShader shaderProgram vertexShader;
   C_glAttachShader shaderProgram fragmentShader;
   C_glLinkProgram shaderProgram;
   C_glGetProgramiv shaderProgram GL_LINK_STATUS] ++
  (if program_iv env shaderProgram GL_LINK_STATUS =? 0
   then [C_glGetProgramInfoLog shaderProgram 512] else []) ++
  [C_glDeleteShader vertexShader; C_glDeleteShader fragmentShader].

Definition shader_calls (env : Env) : list call :=
  stage_calls env GL_VERTEX_SHADER vertexShaderSource ++
  stage_calls env GL_FRAGMENT_SHADER fragmentShaderSource ++
  link_calls env.

(** The part of an info log that fits the 512-byte buffer. *)
Definition clip (log : string) : string := substring 0 511 log.

Definition stage_report (env : Env) (kind : Z) (header : string) : string :=
  let shader := create_shader env kind in
  if shader_iv env shader GL_COMPILE_STATUS =? 0
  then (header ++ nl ++ clip (shader_info_log env shader) ++ nl)%string
  else "".

Definition link_report (env : Env) : string :=
  let shaderProgram := create_program env in
  if program_iv env shaderProgram GL_LINK_STATUS =? 0
  then ("ERROR::SHADER::PROGRAM::LINKING_FAILED" ++ nl ++
        clip (program_info_log env shaderProgram) ++ nl)%string
  else "".

(** What the shader build writes to standard output. *)
Definition shader_report (env : Env) : string :=
  (stage_report env GL_VERTEX_SHADER "ERROR::SHADER::VERTEX::COMPILATION_FAILED" ++
   stage_report env GL_FRAGMENT_SHADER "ERROR::SHADER::FRAGMENT::COMPILATION_FAILED" ++
   link_report env)%string.

Definition geometry_calls (env : Env) : list call :=
  [C_glGenVertexArrays 1; C_glGenBuffers 1;
   C_glBindVertexArray (gen_vertex_array env);
   C_glBindBuffer GL_ARRAY_BUFFER (gen_buffer env);
   C_glBufferData GL_ARRAY_BUFFER 72 vertices GL_STATIC_DRAW;
   C_glVertexAttribPointer 0 3 GL_FLOAT GL_FALSE 12 0;
   C_glEnableVertexAttribArray 0;
   C_glBindBuffer GL_ARRAY_BUFFER 0;
   C_glBindVertexArray 0].

Definition cleanup_calls (env : Env) : list call :=
  [C_glDeleteVertexArrays 1 (gen_vertex_array env);
   C_glDeleteBuffers 1 (gen_buffer env);
   C_glDeleteProgram (create_program env);
   C_glfwTerminate].

(** Library state once the context is current, the callback registered and
    the loader done. *)
Definition sys_ready (env : Env) : Sys :=
  {| glfw_ready := true; the_window := window_ptr env; should_close := 0;
     key_state := fun _ => GLFW_RELEASE;
     fb_callback := Some cb_framebuffer_size_callback;
     framebuffer := initial_framebuffer env;
     viewport := (0, 0, fst (initial_framebuffer env), snd (initial_framebuffer env));
     glewExperimental := GL_TRUE; polls := O |}.

(** The world in which the render loop is entered. *)
Definition w_loop (env : Env) : World :=
  {| trace := startup_calls env ++ context_calls env ++ shader_calls env
              ++ geometry_calls env;
     stdout := shader_report env; stderr := ""; sys := sys_ready env |}.

(** What [main] does once the loop is reached. *)
Definition loop_and_cleanup (env : Env) (fuel : nat) : M Z :=
  render_loop env fuel (window_ptr env) (create_program env) (gen_vertex_array env) ;;
  final_cleanup (create_program env) (gen_buffer env) (gen_vertex_array env) ;;
  glfwTerminate ;;
  ret 0.

(** *** Sample environments *)

(** A machine on which everything works.  The third poll delivers a resize
    and an Escape key press. *)
Definition env_ok : Env :=
  {| apple := false; glfwInit_result := GLFW_TRUE; window_ptr := 4096;
     initial_framebuffer := (800, 600); glewInit_result := GLEW_OK;
     create_shader := fun kind => if kind =? GL_VERTEX_SHADER then 1 else 2;
     shader_iv := fun _ _ => 1; shader_info_log := fun _ => "";
     create_program := 3;
     program_iv := fun _ _ => 1; program_info_log := fun _ => "";
     gen_vertex_array := 1; gen_buffer := 1;
     events := fun n => match n with
                        | 2%nat => [EvFramebufferSize 1024 768;
                                    EvKey GLFW_KEY_ESCAPE GLFW_PRESS]
                        | _ => []
                        end |}.

(** The environment [env], except that compiling and linking go as given. *)
Definition with_shader_outcome (env : Env)
    (siv : Z -> Z -> Z) (slog : Z -> string)
    (piv : Z -> Z -> Z) (plog : Z -> string) : Env :=
  {| apple := apple env; glfwInit_result := glfwInit_result env;
     window_ptr := window_ptr env;
     initial_framebuffer := initial_framebuffer env;
     glewInit_result := glewInit_result env;
     create_shader := create_shader env;
     shader_iv := siv; shader_info_log := slog;
     create_program := create_program env;
     program_iv := piv; program_info_log := plog;
     gen_vertex_array := gen_vertex_array env; gen_buffer := gen_buffer env;
     events := events env |}.

(** As [env_ok], but the fragment shader (handle 2) does not compile. *)
Definition env_broken_fragment : Env :=
  with_shader_outcome env_ok
    (fun shader _ => if shader =? 2 then 0 else 1)
    (fun _ => "0(5) : error C0000: syntax error")
    (fun _ _ => 1) (fun _ => "").

(** As [env_ok], but [glewInit] fails (1 is GLEW_ERROR_NO_GL_VERSION). *)
Definition env_no_loader : Env :=
  {| apple := false; glfwInit_result := GLFW_TRUE; window_ptr := 4096;
     initial_framebuffer := (800, 600); glewInit_result := 1;
     create_shader := create_shader env_ok;
     shader_iv := shader_iv env_ok; shader_info_log := shader_info_log env_ok;
     create_program := 3;
     program_iv := program_iv env_ok; program_info_log := program_info_log env_ok;
     gen_vertex_array := 1; gen_buffer := 1;
     events := events env_ok |}.

(** As [env_ok], but [glfwInit] fails. *)
Definition env_no_glfw : Env :=
  {| apple := false; glfwInit_result := GLFW_FALSE; window_ptr := 4096;
     initial_framebuffer := (800, 600); glewInit_result := GLEW_OK;
     create_shader := create_shader env_ok;
     shader_iv := shader_iv env_ok; shader_info_log := shader_info_log env_ok;
     create_program := 3;
     program_iv := program_iv env_ok; program_info_log := program_info_log env_ok;
     gen_vertex_array := 1; gen_buffer := 1;
     events := events env_ok |}.

(** *** Phases of an iteration *)

Inductive phase : Type := InputPhase | ClearPhase | DrawPhase | PresentPhase.

(** The phase of section 4.5 of the specification to which a call of an
    iteration belongs.  The viewport update is made by the resize callback
    while events are polled. *)
Definition phase_of (c : call) : option phase :=
  match c with
  | C_glfwPollEvents | C_glViewport _ _ _ _
  | C_glfwGetKey _ _ | C_glfwSetWindowShouldClose _ _ => Some InputPhase
  | C_glClearColor _ _ _ _ | C_glClear _ => Some ClearPhase
  | C_glUseProgram _ | C_glBindVertexArray _ | C_glDrawArrays _ _ _ =>
      Some DrawPhase
  | C_glfwSwapBuffers _ => Some PresentPhase
  | _ => None
  end.

Definition phase_rank (p : phase) : nat :=
  match p with
  | InputPhase => 1
  | ClearPhase => 2
  | DrawPhase => 3
  | PresentPhase => 4
  end.

Fixpoint nondecreasing (l : list nat) : bool :=
  match l with
  | a :: (b :: _) as l' => (a <=? b)%nat && nondecreasing l'
  | _ => true
  end.

Fixpoint ranks (t : list call) : list nat :=
  match t with
  | [] => []
  | c :: t' => match phase_of c with
               | Some p => phase_rank p :: ranks t'
               | None => ranks t'
               end
  end.

Definition is_poll (c : call) : bool :=
  match c with C_glfwPollEvents => true | _ => false end.

(** The order as the specification words it: events are polled, and the
    calls of an iteration come phase after phase, input, clear, draw,
    present. *)
Definition spec_phase_order (t : list call) : bool :=
  existsb is_poll t && nondecreasing (ranks t).

(** *** Diagnostics *)

(** [sub] occurs in [s]. *)
Definition contains (s sub : string) : Prop :=
  exists pre post, s = (pre ++ sub ++ post)%string.

(** The calls that only fetch a diagnostic. *)
Definition diagnostic (c : call) : bool :=
  match c with
  | C_glGetShaderInfoLog _ _ | C_glGetProgramInfoLog _ _ => true
  | _ => false
  end.

(** A trace without the diagnostic calls. *)
Definition control_flow (t : list call) : list call :=
  filter (fun c => negb (diagnostic c)) t.

(** *** Resize *)

(** The viewport is the whole framebuffer. *)
Definition covers (s : Sys) : Prop :=
  viewport s = (0, 0, fst (framebuffer s), snd (framebuffer s)).

(** No resize event of the list reports a negative size. *)
Definition sane_sizes (evs : list event) : Prop :=
  forall width height,
    In (EvFramebufferSize width height) evs -> 0 <= width /\ 0 <= height.

(** *** Geometry *)

(** A position as the vertex shader receives it at location 0. *)
Definition position : Type := (Q * Q * Q)%type.

Definition px (p : position) : Q := fst (fst p).
Definition py (p : position) : Q := snd (fst p).
Definition pz (p : position) : Q := snd p.

(** Twice the signed area of the triangle a, b, (x, y) in the plane. *)
Definition edge (a b : position) (x y : Q) : Q :=
  ((px b - px a) * (y - py a) - (py b - py a) * (x - px a))%Q.

(** The point (x, y) lies in the triangle or on its border: it is on the
    same side of the three edges. *)
Definition inside (t : position * position * position) (x y : Q) : Prop :=
  let '(a, b, c) := t in
  (0 <= edge a b x y /\ 0 <= edge b c x y /\ 0 <= edge c a x y)%Q \/
  (edge a b x y <= 0 /\ edge b c x y <= 0 /\ edge c a x y <= 0)%Q.

(** The square of side [side] centred at the origin, border included. *)
Definition in_square (side x y : Q) : Prop :=
  (- (side / 2) <= x /\ x <= side / 2 /\ - (side / 2) <= y /\ y <= side / 2)%Q.

Definition is_draw (c : call) : bool :=
  match c with C_glDrawArrays _ _ _ => true | _ => false end.

Definition is_upload (c : call) : bool :=
  match c with C_glBufferData _ _ _ _ => true | _ => false end.

Definition is_attribute (c : call) : bool :=
  match c with C_glVertexAttribPointer _ _ _ _ _ _ => true | _ => false end.

(** What the array buffer holds once the calls of [t] are made: the data
    of the last upload. *)
Definition uploaded (t : list call) : list Q :=
  match rev (filter is_upload t) with
  | C_glBufferData _ _ data _ :: _ => data
  | _ => []
  end.

(** The layout that the calls of [t] declare last for the attribute
    [index]: number of components, type, stride and offset in bytes. *)
Definition layout (index : Z) (t : list call) : option (Z * Z * Z * Z) :=
  match
    find (fun c => match c with
                   | C_glVertexAttribPointer i _ _ _ _ _ => i =? index
                   | _ => false
                   end)
         (rev (filter is_attribute t))
  with
  | Some (C_glVertexAttribPointer _ size type _ stride pointer) =>
      Some (size, type, stride, pointer)
  | _ => None
  end.

(** Vertex [i] of an attribute of three floats, read from [data]; a stride
    of 0 means that the vertices follow each other without a gap.  A vertex
    that does not lie within the data is not there. *)
Definition fetch (lay : Z * Z * Z * Z) (data : list Q) (i : Z)
  : option position :=
  let '(size, type, stride, pointer) := lay in
  let step := if stride =? 0 then size * sizeof_float else stride in
  let base := Z.to_nat ((pointer + i * step) / sizeof_float) in
  if (size =? 3) && (type =? GL_FLOAT) && (0 <=? i) then
    match nth_error data base, nth_error data (S base),
          nth_error data (S (S base)) with
    | Some x, Some y, Some z => Some (x, y, z)
    | _, _, _ => None
    end
  else None.

(** Vertex [i] as attribute 0 delivers it after the calls of [t]. *)
Definition vertex_of (t : list call) (i : Z) : option position :=
  match layout 0 t with
  | Some lay => fetch lay (uploaded t) i
  | None => None
  end.

(** The vertex shader of lines 17-22, whose body is
    [gl_Position = vec4(aPos.x, aPos.y, aPos.z, 1.0)]: the clip coordinates
    of a vertex. *)
Definition vertex_shader_main (aPos : position) : Q * Q * Q * Q :=
  (px aPos, py aPos, pz aPos, 1.0%Q).

(** Normalized device coordinates: clip coordinates divided by w. *)
Definition ndc (clip : Q * Q * Q * Q) : position :=
  let '(x, y, z, w) := clip in ((x / w)%Q, (y / w)%Q, (z / w)%Q).

(** Primitive assembly for [GL_TRIANGLES]: each three vertices in a row,
    from [first] on, make one triangle. *)
Fixpoint assemble (v : Z -> option position) (first : Z) (n : nat)
  : list (position * position * position) :=
  match n with
  | O => []
  | S n' =>
      match v first, v (first + 1), v (first + 2) with
      | Some a, Some b, Some c => [(a, b, c)]
      | _, _, _ => []
      end ++ assemble v (first + 3) n'
  end.

(** The triangles, in normalized device coordinates, that a draw call
    with these arguments draws after the calls of [t]. *)
Definition drawn_triangles (t : list call) (mode first cnt : Z)
  : list (position * position * position) :=
  if mode =? GL_TRIANGLES then
    assemble (fun i => option_map (fun p => ndc (vertex_shader_main p))
                                  (vertex_of t i))
             first (Z.to_nat (cnt / 3))
  else [].

(** *** The run as a whole *)

(** A machine on which everything works and nobody asks to close: every
    poll delivers a resize and a press of the A key. *)
Definition env_idle : Env :=
  {| apple := false; glfwInit_result := GLFW_TRUE; window_ptr := 4096;
     initial_framebuffer := (800, 600); glewInit_result := GLEW_OK;
     create_shader := create_shader env_ok;
     shader_iv := shader_iv env_ok; shader_info_log := shader_info_log env_ok;
     create_program := 3;
     program_iv := program_iv env_ok; program_info_log := program_info_log env_ok;
     gen_vertex_array := 1; gen_buffer := 1;
     events := fun _ => [EvFramebufferSize 640 480; EvKey 65 GLFW_PRESS] |}.

(** The viewport call the resize callback makes for a resize event that
    some poll delivers. *)
Definition resize_call (env : Env) (c : call) : Prop :=
  exists n width height,
    c = C_glViewport 0 0 width height /\
    In (EvFramebufferSize width height) (events env n).

(** The calls of a render loop that went through [frames] whole
    iterations: each iteration is the condition check, the calls of the
    body up to the poll, and the viewport calls of the resize callback; the
    loop that ended has one more check at the end. *)
Inductive loop_trace (env : Env) (window shaderProgram VAO : Z)
  : bool -> nat -> list call -> Prop :=
| loop_running : loop_trace env window shaderProgram VAO false O []
| loop_ended :
    loop_trace env window shaderProgram VAO true O
      [C_glfwWindowShouldClose window]
| loop_frame ended frames pressed resizes rest :
    Forall (resize_call env) resizes ->
    loop_trace env window shaderProgram VAO ended frames rest ->
    loop_trace env window shaderProgram VAO ended (S frames)
      (C_glfwWindowShouldClose window ::
       frame_calls pressed window shaderProgram VAO ++ resizes ++ rest).

(** How often a kind of call occurs. *)
Definition count (f : call -> bool) (t : list call) : nat :=
  List.length (filter f t).

Definition is_check (c : call) : bool :=
  match c with C_glfwWindowShouldClose _ => true | _ => false end.

Definition is_clear (c : call) : bool :=
  match c with C_glClear _ => true | _ => false end.

Definition is_swap (c : call) : bool :=
  match c with C_glfwSwapBuffers _ => true | _ => false end.

(** The calls into OpenGL, as opposed to GLFW and GLEW. *)
Definition is_gl (c : call) : bool :=
  match c with
  | C_glCreateShader _ | C_glShaderSource _ _ _ _ | C_glCompileShader _
  | C_glGetShaderiv _ _ | C_glGetShaderInfoLog _ _ | C_glCreateProgram
  | C_glAttachShader _ _ | C_glLinkProgram _ | C_glGetProgramiv _ _
  | C_glGetProgramInfoLog _ _ | C_glDeleteShader _ | C_glGenVertexArrays _
  | C_glGenBuffers _ | C_glBindVertexArray _ | C_glBindBuffer _ _
  | C_glBufferData _ _ _ _ | C_glVertexAttribPointer _ _ _ _ _ _
  | C_glEnableVertexAttribArray _ | C_glClearColor _ _ _ _ | C_glClear _
  | C_glUseProgram _ | C_glDrawArrays _ _ _ | C_glViewport _ _ _ _
  | C_glDeleteVertexArrays _ _ | C_glDeleteBuffers _ _ | C_glDeleteProgram _
      => true
  | _ => false
  end.

(** Every draw call of [t] comes right after the program is put in use and
    the vertex array is bound. *)
Definition draw_guarded (shaderProgram VAO : Z) (t : list call) : Prop :=
  forall pre post mode first cnt,
    t = pre ++ C_glDrawArrays mode first cnt :: post ->
    exists pre',
      pre = pre' ++ [C_glUseProgram shaderProgram; C_glBindVertexArray VAO].

(** The last Escape key event of the list is a press. *)
Definition escape_pressed_last (evs : list event) : Prop :=
  exists pre post,
    evs = pre ++ EvKey GLFW_KEY_ESCAPE GLFW_PRESS :: post /\
    forall action, ~ In (EvKey GLFW_KEY_ESCAPE action) post.

(** As [env_ok], but the first poll delivers a release of Escape, then a
    press of it, then a press of the A key. *)
Definition env_release_press : Env :=
  {| apple := false; glfwInit_result := GLFW_TRUE; window_ptr := 4096;
     initial_framebuffer := (800, 600); glewInit_result := GLEW_OK;
     create_shader := create_shader env_ok;
     shader_iv := shader_iv env_ok; shader_info_log := shader_info_log env_ok;
     create_program := 3;
     program_iv := program_iv env_ok; program_info_log := program_info_log env_ok;
     gen_vertex_array := 1; gen_buffer := 1;
     events := fun n => match n with
                        | O => [EvKey GLFW_KEY_ESCAPE GLFW_RELEASE;
                                EvKey GLFW_KEY_ESCAPE GLFW_PRESS;
                                EvKey 65 GLFW_PRESS]
                        | _ => []
                        end |}.

(** Nothing asks the window to close: no close request, no Escape press. *)
Definition undisturbed (evs : list event) : Prop :=
  ~ In EvClose evs /\ ~ In (EvKey GLFW_KEY_ESCAPE GLFW_PRESS) evs.

(** The close flag is down and Escape is not reported as pressed. *)
Definition at_rest (s : Sys) : Prop :=
  should_close s = 0 /\ key_state s GLFW_KEY_ESCAPE <> GLFW_PRESS.

(** The creation and the deletion of GPU objects, by kind of object. *)
Definition creates_shader (c : call) : bool :=
  match c with C_glCreateShader _ => true | _ => false end.
Definition deletes_shader (c : call) : bool :=
  match c with C_glDeleteShader _ => true | _ => false end.
Definition creates_program (c : call) : bool :=
  match c with C_glCreateProgram => true | _ => false end.
Definition deletes_program (c : call) : bool :=
  match c with C_glDeleteProgram _ => true | _ => false end.
Definition creates_vertex_array (c : call) : bool :=
  match c with C_glGenVertexArrays _ => true | _ => false end.
Definition deletes_vertex_array (c : call) : bool :=
  match c with C_glDeleteVertexArrays _ _ => true | _ => false end.
Definition creates_buffer (c : call) : bool :=
  match c with C_glGenBuffers _ => true | _ => false end.
Definition deletes_buffer (c : call) : bool :=
  match c with C_glDeleteBuffers _ _ => true | _ => false end.

(* ------------------------------------------------------------------ *)
(** ** Running programs: general facts *)

Lemma bind_run {A B} (m : M A) (f : A -> M B) (w : World) :
  bind m f w = match value m w with
               | Done a => f a (exec m w)
               | OutOfFuel => (OutOfFuel, exec m w)
               end.
Proof.
  unfold bind, value, exec. destruct (m w) as [[a|] w']; reflexivity.
Qed.

Lemma bind_done {A B} (m : M A) (f : A -> M B) (w : World) (a : A) :
  value m w = Done a -> bind m f w = f a (exec m w).
Proof. intros H. rewrite bind_run, H. reflexivity. Qed.

Lemma run_eta {A} (m : M A) (w : World) : m w = (value m w, exec m w).
Proof. unfold value, exec. destruct (m w); reflexivity. Qed.

Lemma calls_of_app {A} (m : M A) (w : World) (l : list call) :
  trace (exec m w) = trace w ++ l -> calls_of m w = l.
Proof.
  intros H. unfold calls_of. rewrite H.
  rewrite skipn_app, skipn_all, Nat.sub_diag. reflexivity.
Qed.

Lemma append_nil_r (s : string) : (s ++ "")%string = s.
Proof. induction s as [|c s IH]; simpl; [|rewrite IH]; reflexivity. Qed.

Lemma append_assoc (a b c : string) :
  ((a ++ b) ++ c)%string = (a ++ b ++ c)%string.
Proof. induction a as [|x a IH]; simpl; [|rewrite IH]; reflexivity. Qed.

(** Unfolds the library layer down to the five primitives. *)
Ltac unfold_api :=
  unfold glfwInit, glfwWindowHint, glfwCreateWindow, glfwTerminate,
    glfwMakeContextCurrent, glfwSetFramebufferSizeCallback,
    glfwWindowShouldClose, glfwSetWindowShouldClose, glfwGetKey,
    glfwSwapBuffers, glewInit, glViewport, glCreateShader, glShaderSource,
    glCompileShader, glGetShaderiv, glGetShaderInfoLog, glCreateProgram,
    glAttachShader, glLinkProgram, glGetProgramiv, glGetProgramInfoLog,
    glDeleteShader, glGenVertexArrays, glGenBuffers, glBindVertexArray,
    glBindBuffer, glBufferData, glVertexAttribPointer,
    glEnableVertexAttribArray, glClearColor, glClear, glUseProgram,
    glDrawArrays, glDeleteVertexArrays, glDeleteBuffers, glDeleteProgram in *.

Ltac unfold_monad :=
  unfold value, exec, bind, ret, emit, gets, modify, cout, timeout in *.

(** Runs the primitives of a program as far as its tests allow. *)
Ltac run_prog :=
  cbv beta iota zeta delta [bind ret emit gets modify cout timeout];
  cbn [fst snd trace stdout stderr sys negb
       glfw_ready the_window should_close key_state fb_callback framebuffer
       viewport glewExperimental polls
       Upd.ready Upd.window Upd.close Upd.key Upd.fbcallback Upd.fb Upd.view
       Upd.experimental Upd.polled].

(** Brings a trace built by successive [emit]s into the shape
    [trace w ++ [c1; ...; cn]]. *)
Ltac flatten_trace := repeat rewrite <- app_assoc; simpl app.

(* ------------------------------------------------------------------ *)
(** ** Event delivery *)

Section Delivery.

Lemma deliver_done ev w : value (deliver ev) w = Done tt.
Proof.
  destruct ev as [k a|wd ht|]; try reflexivity.
  unfold deliver, invoke, framebuffer_size_callback. unfold_api. unfold_monad.
  simpl. destruct (fb_callback (sys w)) as [[]|]; simpl; [|reflexivity].
  destruct ((wd <? 0) || (ht <? 0)); reflexivity.
Qed.

Lemma deliver_trace ev w :
  trace (exec (deliver ev) w) = trace w ++ event_calls (fb_callback (sys w)) ev.
Proof.
  destruct ev as [k a|wd ht|]; simpl; try (rewrite app_nil_r; reflexivity).
  unfold deliver, invoke, framebuffer_size_callback. unfold_api. unfold_monad.
  simpl. destruct (fb_callback (sys w)) as [[]|]; simpl.
  - destruct ((wd <? 0) || (ht <? 0)); reflexivity.
  - rewrite app_nil_r; reflexivity.
Qed.

(** Delivery leaves alone everything but key states, framebuffer size,
    viewport and close flag; the close flag can only be raised. *)
Lemma deliver_frame ev w :
  stdout (exec (deliver ev) w) = stdout w /\
  stderr (exec (deliver ev) w) = stderr w /\
  fb_callback (sys (exec (deliver ev) w)) = fb_callback (sys w) /\
  polls (sys (exec (deliver ev) w)) = polls (sys w) /\
  (should_close (sys w) <> 0 -> should_close (sys (exec (deliver ev) w)) <> 0).
Proof.
  destruct ev as [k a|wd ht|]; simpl; try (repeat split; auto; fail).
  - unfold deliver, invoke, framebuffer_size_callback. unfold_api. unfold_monad.
    simpl. destruct (fb_callback (sys w)) as [[]|] eqn:E; simpl.
    + destruct ((wd <? 0) || (ht <? 0)); simpl; repeat split; auto.
    + repeat split; auto.
  - repeat split; auto. intros _. unfold GLFW_TRUE. discriminate.
Qed.

Lemma dispatch_cons ev evs w :
  dispatch (ev :: evs) w = dispatch evs (exec (deliver ev) w).
Proof.
  simpl. rewrite bind_done with (a := tt) by apply deliver_done. reflexivity.
Qed.

Lemma dispatch_done evs : forall w, value (dispatch evs) w = Done tt.
Proof.
  induction evs as [|ev evs IH]; intros w; [reflexivity|].
  unfold value. rewrite dispatch_cons. apply IH.
Qed.

Lemma dispatch_frame evs : forall w,
  stdout (exec (dispatch evs) w) = stdout w /\
  stderr (exec (dispatch evs) w) = stderr w /\
  fb_callback (sys (exec (dispatch evs) w)) = fb_callback (sys w) /\
  polls (sys (exec (dispatch evs) w)) = polls (sys w) /\
  (should_close (sys w) <> 0 -> should_close (sys (exec (dispatch evs) w)) <> 0).
Proof.
  induction evs as [|ev evs IH]; intros w.
  - simpl. repeat split; auto.
  - unfold exec. rewrite dispatch_cons. fold (exec (dispatch evs) (exec (deliver ev) w)).
    destruct (IH (exec (deliver ev) w)) as (H1 & H2 & H3 & H4 & H5).
    destruct (deliver_frame ev w) as (D1 & D2 & D3 & D4 & D5).
    rewrite H1, H2, H3, H4, D1, D2, D3, D4. repeat split; auto.
Qed.

Lemma dispatch_trace evs : forall w,
  trace (exec (dispatch evs) w) =
  trace w ++ flat_map (event_calls (fb_callback (sys w))) evs.
Proof.
  induction evs as [|ev evs IH]; intros w.
  - simpl. rewrite app_nil_r. reflexivity.
  - unfold exec. rewrite dispatch_cons. fold (exec (dispatch evs) (exec (deliver ev) w)).
    rewrite IH, deliver_trace.
    destruct (deliver_frame ev w) as (_ & _ & D3 & _). rewrite D3.
    simpl. rewrite <- app_assoc. reflexivity.
Qed.

Lemma dispatch_close evs : forall w,
  In EvClose evs -> should_close (sys (exec (dispatch evs) w)) <> 0.
Proof.
  induction evs as [|ev evs IH]; intros w Hin; [contradiction|].
  unfold exec. rewrite dispatch_cons. destruct Hin as [->|Hin].
  - apply dispatch_frame. simpl. unfold GLFW_TRUE. discriminate.
  - apply IH, Hin.
Qed.

End Delivery.

(* ------------------------------------------------------------------ *)
(** ** One iteration of the render loop *)

Section Iteration.

Variable env : Env.
Variables window shaderProgram VAO : Z.

Local Abbreviation body := (render_loop_body env window shaderProgram VAO).
Local Abbreviation step := (loop_step env window shaderProgram VAO).
Local Abbreviation iter := (iterate env window shaderProgram VAO).

Lemma body_run w :
  body w =
  dispatch (events env (polls (sys w)))
    (mkWorld (trace w ++ frame_calls (escape_down (sys w)) window shaderProgram VAO)
       (stdout w) (stderr w)
       (Upd.polled (if escape_down (sys w) then Upd.close 1 (sys w) else sys w))).
Proof.
  unfold body, render_loop_body, processInput, glfwPollEvents, escape_down,
    frame_calls.
  unfold_api. unfold_monad. simpl.
  destruct (key_state (sys w) GLFW_KEY_ESCAPE =? GLFW_PRESS); simpl;
    flatten_trace; reflexivity.
Qed.

Lemma body_done w : value body w = Done tt.
Proof. unfold value. rewrite body_run. apply dispatch_done. Qed.

Lemma body_trace w :
  trace (exec body w) =
  trace w ++ frame_calls (escape_down (sys w)) window shaderProgram VAO
          ++ flat_map (event_calls (fb_callback (sys w)))
                      (events env (polls (sys w))).
Proof.
  unfold exec. rewrite body_run.
  match goal with |- trace (snd (dispatch ?e ?x)) = _ =>
    pose proof (dispatch_trace e x) as H; unfold exec in H; rewrite H end.
  simpl. rewrite <- app_assoc.
  destruct (escape_down (sys w)); reflexivity.
Qed.

Lemma body_frame w :
  stdout (exec body w) = stdout w /\
  stderr (exec body w) = stderr w /\
  fb_callback (sys (exec body w)) = fb_callback (sys w) /\
  polls (sys (exec body w)) = S (polls (sys w)) /\
  (should_close (sys w) <> 0 \/ escape_down (sys w) = true ->
   should_close (sys (exec body w)) <> 0).
Proof.
  unfold exec. rewrite body_run.
  match goal with |- context [dispatch ?e ?x] =>
    destruct (dispatch_frame e x) as (H1 & H2 & H3 & H4 & H5) end.
  unfold exec in *. rewrite H1, H2, H3, H4. simpl in *.
  repeat split; try (destruct (escape_down (sys w)); reflexivity).
  intros H. apply H5.
  destruct (escape_down (sys w)); simpl.
  - discriminate.
  - destruct H as [H|H]; [exact H|discriminate].
Qed.

Lemma render_loop_unfold fuel w :
  render_loop env (S fuel) window shaderProgram VAO w =
  if should_close (sys w) =? 0
  then render_loop env fuel window shaderProgram VAO (step w)
  else (Done tt, exec (glfwWindowShouldClose window) w).
Proof.
  unfold loop_step. cbn [render_loop].
  rewrite bind_run.
  change (value (glfwWindowShouldClose window) w) with (Done (should_close (sys w))).
  cbv beta iota.
  destruct (should_close (sys w) =? 0); [|reflexivity].
  fold body. rewrite bind_done with (a := tt) by apply body_done.
  reflexivity.
Qed.

(** If the close flag is up when the loop condition is checked for the
    (n+1)-th time, the loop ends at one of the first n+1 checks. *)
Lemma render_loop_exits n : forall w fuel,
  should_close (sys (iter n w)) <> 0 -> (n < fuel)%nat ->
  exists k, (k <= n)%nat /\
    should_close (sys (iter k w)) <> 0 /\
    render_loop env fuel window shaderProgram VAO w =
    (Done tt, exec (glfwWindowShouldClose window) (iter k w)).
Proof.
  induction n as [|n IH]; intros w fuel Hc Hf.
  - destruct fuel as [|fuel]; [lia|]. exists O. split; [lia|]. split; [exact Hc|].
    rewrite render_loop_unfold. simpl in *.
    destruct (Z.eqb_spec (should_close (sys w)) 0); [contradiction|reflexivity].
  - destruct fuel as [|fuel]; [lia|].
    rewrite render_loop_unfold.
    destruct (Z.eqb_spec (should_close (sys w)) 0) as [E|E].
    + destruct (IH (step w) fuel Hc ltac:(lia)) as (k & Hk & Hck & Hr).
      exists (S k). split; [lia|]. split; [exact Hck|exact Hr].
    + exists O. split; [lia|]. split; [exact E|reflexivity].
Qed.

(** The loop never ends with anything but [Done tt] or [OutOfFuel], and
    only with the close flag up. *)
Lemma render_loop_result fuel : forall w,
  value (render_loop env fuel window shaderProgram VAO) w = OutOfFuel \/
  (value (render_loop env fuel window shaderProgram VAO) w = Done tt /\
   should_close (sys (exec (render_loop env fuel window shaderProgram VAO) w)) <> 0).
Proof.
  induction fuel as [|fuel IH]; intros w.
  - left; reflexivity.
  - unfold value, exec. rewrite render_loop_unfold.
    destruct (Z.eqb_spec (should_close (sys w)) 0) as [E|E].
    + apply IH.
    + right. split; [reflexivity|exact E].
Qed.

Lemma loop_step_frame w :
  stdout (step w) = stdout w /\
  stderr (step w) = stderr w /\
  fb_callback (sys (step w)) = fb_callback (sys w) /\
  polls (sys (step w)) = S (polls (sys w)).
Proof.
  unfold loop_step.
  destruct (body_frame (exec (glfwWindowShouldClose window) w))
    as (H1 & H2 & H3 & H4 & _).
  rewrite H1, H2, H3, H4. repeat split.
Qed.

Lemma render_loop_frame fuel : forall w,
  stdout (exec (render_loop env fuel window shaderProgram VAO) w) = stdout w /\
  stderr (exec (render_loop env fuel window shaderProgram VAO) w) = stderr w /\
  fb_callback (sys (exec (render_loop env fuel window shaderProgram VAO) w))
    = fb_callback (sys w).
Proof.
  induction fuel as [|fuel IH]; intros w.
  - repeat split.
  - unfold exec. rewrite render_loop_unfold.
    destruct (should_close (sys w) =? 0).
    + destruct (IH (step w)) as (H1 & H2 & H3).
      destruct (loop_step_frame w) as (L1 & L2 & L3 & _).
      unfold exec in *. rewrite H1, H2, H3, L1, L2, L3. repeat split.
    + repeat split.
Qed.

Lemma iterate_snoc n : forall w, iter (S n) w = step (iter n w).
Proof.
  induction n as [|n IH]; intros w; [reflexivity|].
  exact (IH (step w)).
Qed.

Lemma iterate_polls n : forall w,
  polls (sys (iter n w)) = (polls (sys w) + n)%nat.
Proof.
  induction n as [|n IH]; intros w; [simpl; lia|].
  simpl. rewrite IH.
  destruct (loop_step_frame w) as (_ & _ & _ & H). rewrite H. lia.
Qed.

Lemma loop_step_close w :
  In EvClose (events env (polls (sys w))) ->
  should_close (sys (step w)) <> 0.
Proof.
  intros Hin. unfold loop_step, exec at 1. rewrite body_run.
  apply dispatch_close. exact Hin.
Qed.

(** A close request delivered by a poll raises the flag for the check that
    follows. *)
Lemma close_request_raises_flag n w :
  In EvClose (events env (polls (sys w) + n)) ->
  should_close (sys (iter (S n) w)) <> 0.
Proof.
  intros Hin. rewrite iterate_snoc. apply loop_step_close.
  rewrite iterate_polls. exact Hin.
Qed.

End Iteration.

(* ------------------------------------------------------------------ *)
(** ** The phases of [main] in closed form *)

Section Phases.

Variable env : Env.

Lemma build_shader_program_run w :
  build_shader_program env w =
  (Done (create_program env),
   mkWorld (trace w ++ shader_calls env) (stdout w ++ shader_report env)%string
           (stderr w) (sys w)).
Proof.
  unfold build_shader_program, shader_calls, stage_calls, link_calls,
    shader_report, stage_report, link_report, clip.
  unfold_api. unfold_monad. cbv zeta. cbn [fst snd trace stdout stderr sys].
  change (Z.to_nat (512 - 1)) with 511%nat.
  destruct (shader_iv env (create_shader env GL_VERTEX_SHADER) GL_COMPILE_STATUS =? 0);
  destruct (shader_iv env (create_shader env GL_FRAGMENT_SHADER) GL_COMPILE_STATUS =? 0);
  destruct (program_iv env (create_program env) GL_LINK_STATUS =? 0);
  cbn [fst snd trace stdout stderr sys];
  repeat rewrite <- app_assoc; cbn [app];
  repeat rewrite append_assoc; cbn [append]; repeat rewrite append_nil_r;
  reflexivity.
Qed.

Lemma setup_geometry_run w :
  setup_geometry env w =
  (Done (gen_buffer env, gen_vertex_array env),
   mkWorld (trace w ++ geometry_calls env) (stdout w) (stderr w) (sys w)).
Proof.
  unfold setup_geometry, geometry_calls. unfold_api. unfold_monad.
  cbn [fst snd trace stdout stderr sys]. flatten_trace. reflexivity.
Qed.

Lemma main_starts fuel :
  creates_window env = true -> loader_ok env = true ->
  main env fuel w0 = loop_and_cleanup env fuel (w_loop env).
Proof.
  unfold creates_window, loader_ok. intros Hw Hl.
  apply andb_prop in Hw. destruct Hw as [Hi Hp].
  unfold main, loop_and_cleanup, w_loop, startup_calls, hint_calls,
    context_calls, sys_ready, title.
  unfold glfwInit, glfwWindowHint, glfwCreateWindow, glfwMakeContextCurrent,
    glfwSetFramebufferSizeCallback, glewInit.
  rewrite Hi. unfold w0, sys0. run_prog.
  apply negb_true_iff in Hp.
  destruct (apple env); run_prog; rewrite Hp; run_prog; rewrite Hl; run_prog;
    rewrite build_shader_program_run; run_prog;
    rewrite setup_geometry_run; run_prog;
    (match goal with
     | |- (let (_, _) := render_loop _ _ _ _ _ ?W1 in _) =
          (let (_, _) := render_loop _ _ _ _ _ ?W2 in _) =>
         replace W1 with W2; [reflexivity|]
     end);
    f_equal; repeat rewrite <- app_assoc; reflexivity.
Qed.

Lemma main_no_window fuel :
  creates_window env = false ->
  value (main env fuel) w0 = Done (-1) /\
  trace (exec (main env fuel) w0) = startup_calls env ++ [C_glfwTerminate] /\
  stdout (exec (main env fuel) w0) = ("Failed to create GLFW window" ++ nl)%string /\
  stderr (exec (main env fuel) w0) = "".
Proof.
  unfold creates_window. intros Hw.
  unfold value, exec, main, startup_calls, hint_calls, title.
  unfold glfwInit, glfwWindowHint, glfwCreateWindow, glfwTerminate.
  unfold w0, sys0. run_prog.
  destruct (glfwInit_result env =? GLFW_FALSE); simpl in Hw.
  - destruct (apple env); run_prog; change (NULL =? NULL) with true;
      run_prog; repeat split.
  - apply negb_false_iff in Hw.
    destruct (apple env); run_prog; rewrite Hw; run_prog; repeat split.
Qed.

Lemma main_no_loader fuel :
  creates_window env = true -> loader_ok env = false ->
  value (main env fuel) w0 = Done (-1) /\
  trace (exec (main env fuel) w0) = startup_calls env ++ context_calls env /\
  stdout (exec (main env fuel) w0) = ("Failed to initialize GLEW" ++ nl)%string /\
  stderr (exec (main env fuel) w0) = "".
Proof.
  unfold creates_window, loader_ok. intros Hw Hl.
  apply andb_prop in Hw. destruct Hw as [Hi Hp]. apply negb_true_iff in Hp.
  unfold value, exec, main, startup_calls, hint_calls, context_calls, title.
  unfold glfwInit, glfwWindowHint, glfwCreateWindow, glfwMakeContextCurrent,
    glfwSetFramebufferSizeCallback, glewInit.
  rewrite Hi. unfold w0, sys0. run_prog.
  destruct (apple env); run_prog; rewrite Hp; run_prog; rewrite Hl; run_prog;
    repeat split.
Qed.

Lemma loop_and_cleanup_value fuel w :
  value (loop_and_cleanup env fuel) w =
  match value (render_loop env fuel (window_ptr env) (create_program env)
                 (gen_vertex_array env)) w with
  | Done _ => Done 0
  | OutOfFuel => OutOfFuel
  end.
Proof.
  unfold loop_and_cleanup, value. rewrite bind_run. unfold value.
  destruct (fst (render_loop env fuel _ _ _ w)); reflexivity.
Qed.

Lemma loop_and_cleanup_done fuel w W :
  render_loop env fuel (window_ptr env) (create_program env)
    (gen_vertex_array env) w = (Done tt, W) ->
  loop_and_cleanup env fuel w =
  (Done 0, mkWorld (trace W ++ cleanup_calls env) (stdout W) (stderr W)
             (Upd.view (0, 0, 0, 0)
                (Upd.fb (0, 0)
                   (Upd.fbcallback None
                      (Upd.window NULL (Upd.ready false (sys W))))))).
Proof.
  intros H. unfold loop_and_cleanup, cleanup_calls.
  rewrite bind_run. unfold value, exec. rewrite H.
  unfold final_cleanup, glfwTerminate. unfold_api. run_prog.
  flatten_trace. reflexivity.
Qed.

Lemma loop_and_cleanup_timeout fuel w :
  value (render_loop env fuel (window_ptr env) (create_program env)
           (gen_vertex_array env)) w = OutOfFuel ->
  loop_and_cleanup env fuel w =
  (OutOfFuel, exec (render_loop env fuel (window_ptr env) (create_program env)
                      (gen_vertex_array env)) w).
Proof.
  intros H. unfold loop_and_cleanup. rewrite bind_run, H. reflexivity.
Qed.

End Phases.

(* ------------------------------------------------------------------ *)
(** ** The loop sees the library state only *)

Section Independence.

Variables window shaderProgram VAO : Z.

Lemma deliver_sys ev w1 w2 :
  sys w1 = sys w2 -> sys (exec (deliver ev) w1) = sys (exec (deliver ev) w2).
Proof.
  intros H. destruct ev as [k a|wd ht|]; simpl; try (rewrite H; reflexivity).
  unfold deliver, invoke, framebuffer_size_callback, glViewport, exec.
  run_prog. rewrite H.
  destruct (fb_callback (sys w2)) as [[]|]; run_prog; [|reflexivity].
  destruct ((wd <? 0) || (ht <? 0)); run_prog; reflexivity.
Qed.

Lemma dispatch_sys evs : forall w1 w2,
  sys w1 = sys w2 -> sys (exec (dispatch evs) w1) = sys (exec (dispatch evs) w2).
Proof.
  induction evs as [|ev evs IH]; intros w1 w2 H; [exact H|].
  unfold exec. rewrite !dispatch_cons. apply IH, deliver_sys, H.
Qed.

Lemma body_sys env w1 w2 :
  sys w1 = sys w2 ->
  sys (exec (render_loop_body env window shaderProgram VAO) w1) =
  sys (exec (render_loop_body env window shaderProgram VAO) w2).
Proof.
  intros H. unfold exec. rewrite !body_run, H.
  apply dispatch_sys. reflexivity.
Qed.

(** Two worlds with the same library state go through the same iteration:
    same calls, same state afterwards. *)
Lemma loop_step_sys env w1 w2 :
  sys w1 = sys w2 ->
  sys (loop_step env window shaderProgram VAO w1) =
  sys (loop_step env window shaderProgram VAO w2) /\
  exists l,
    trace (loop_step env window shaderProgram VAO w1) = trace w1 ++ l /\
    trace (loop_step env window shaderProgram VAO w2) = trace w2 ++ l.
Proof.
  intros H. unfold loop_step.
  assert (E : forall w, sys (exec (glfwWindowShouldClose window) w) = sys w)
    by reflexivity.
  split.
  - apply body_sys. rewrite !E. exact H.
  - rewrite !body_trace, !E, H. simpl.
    eexists. split; rewrite <- app_assoc; reflexivity.
Qed.

Lemma render_loop_sys env fuel : forall w1 w2,
  sys w1 = sys w2 ->
  value (render_loop env fuel window shaderProgram VAO) w1 =
  value (render_loop env fuel window shaderProgram VAO) w2 /\
  sys (exec (render_loop env fuel window shaderProgram VAO) w1) =
  sys (exec (render_loop env fuel window shaderProgram VAO) w2) /\
  exists l,
    trace (exec (render_loop env fuel window shaderProgram VAO) w1) = trace w1 ++ l /\
    trace (exec (render_loop env fuel window shaderProgram VAO) w2) = trace w2 ++ l /\
    (fuel <> O -> exists l', l = C_glfwWindowShouldClose window :: l').
Proof.
  induction fuel as [|fuel IH]; intros w1 w2 H.
  - simpl. repeat split; [exact H|]. exists []. rewrite !app_nil_r.
    repeat split. intros C; contradiction.
  - unfold value, exec. rewrite !render_loop_unfold. rewrite H.
    destruct (should_close (sys w2) =? 0).
    + destruct (loop_step_sys env w1 w2 H) as (Hs & l0 & T1 & T2).
      destruct (IH _ _ Hs) as (Hv & Hs' & l & L1 & L2 & _).
      unfold value, exec in *. repeat split; [exact Hv|exact Hs'|].
      exists (l0 ++ l). rewrite L1, L2, T1, T2, <- !app_assoc.
      repeat split. intros _.
      pose proof (body_trace env window shaderProgram VAO
                    (exec (glfwWindowShouldClose window) w1)) as B.
      fold (loop_step env window shaderProgram VAO w1) in B.
      rewrite T1 in B. simpl in B. rewrite <- app_assoc in B.
      apply app_inv_head in B. rewrite B. simpl. eexists; reflexivity.
    + simpl. repeat split; [exact H|].
      exists [C_glfwWindowShouldClose window]. repeat split.
      intros _. eexists; reflexivity.
Qed.

(** The loop consults the environment for the events only. *)
Lemma render_loop_events env1 env2 fuel :
  events env1 = events env2 ->
  forall w, render_loop env1 fuel window shaderProgram VAO w =
            render_loop env2 fuel window shaderProgram VAO w.
Proof.
  intros He. induction fuel as [|fuel IH]; intros w; [reflexivity|].
  rewrite !render_loop_unfold.
  assert (loop_step env1 window shaderProgram VAO w =
          loop_step env2 window shaderProgram VAO w) as ->.
  { unfold loop_step, exec. rewrite !body_run, He. reflexivity. }
  rewrite IH. reflexivity.
Qed.

End Independence.

(* ------------------------------------------------------------------ *)
(** ** The order of the phases within an iteration *)

(** C1, as stated, fails: in the first iteration on [env_ok] the calls are
    not in the order input, clear, draw, present, because the poll comes
    after the swap. *)
Lemma phase_order_counterexample :
  spec_phase_order
    (calls_of (render_loop_body env_ok 4096 3 1) (w_loop env_ok)) = false.
Proof. vm_compute. reflexivity. Qed.

(** C1, amended: every iteration of the render loop makes its calls in this
    order: the Escape key check, which sets the close flag if the key is
    down; clear colour and clear; use program, bind vertex array, draw; swap
    buffers; and last the event poll, inside which the resize callback makes
    its viewport calls. *)
Theorem iteration_order (env : Env) (window shaderProgram VAO : Z) (w : World) :
  calls_of (render_loop_body env window shaderProgram VAO) w =
  [C_glfwGetKey window GLFW_KEY_ESCAPE] ++
  (if escape_down (sys w) then [C_glfwSetWindowShouldClose window 1] else []) ++
  [C_glClearColor 0.15 0.15 0.15 1.0; C_glClear GL_COLOR_BUFFER_BIT] ++
  [C_glUseProgram shaderProgram; C_glBindVertexArray VAO;
   C_glDrawArrays GL_TRIANGLES 0 6] ++
  [C_glfwSwapBuffers window] ++
  [C_glfwPollEvents] ++
  flat_map (event_calls (fb_callback (sys w))) (events env (polls (sys w))).
Proof.
  apply calls_of_app. rewrite body_trace. f_equal.
  unfold frame_calls. destruct (escape_down (sys w)); reflexivity.
Qed.

(** The predicate accepts an iteration that polls first. *)
Example spec_phase_order_accepts :
  spec_phase_order
    [C_glfwPollEvents; C_glfwGetKey 4096 GLFW_KEY_ESCAPE;
     C_glClearColor 0.15 0.15 0.15 1.0; C_glClear GL_COLOR_BUFFER_BIT;
     C_glUseProgram 3; C_glBindVertexArray 1; C_glDrawArrays GL_TRIANGLES 0 6;
     C_glfwSwapBuffers 4096] = true.
Proof. reflexivity. Qed.

(* ------------------------------------------------------------------ *)
(** ** Escape *)

(** C9: if [glfwGetKey] reports Escape as pressed when an iteration
    processes its input, that iteration sets the close flag, the flag is
    still up when the iteration ends, the next [glfwWindowShouldClose]
    returns a non-zero value, and the loop ends on that check: the check is
    the only call it still makes. *)
Theorem escape_ends_loop (env : Env) (window shaderProgram VAO : Z)
    (w : World) (fuel : nat) :
  value (glfwGetKey window GLFW_KEY_ESCAPE) w = Done GLFW_PRESS ->
  let body := render_loop_body env window shaderProgram VAO in
  let w1 := exec body w in
  In (C_glfwSetWindowShouldClose window 1) (calls_of body w) /\
  should_close (sys w1) <> 0 /\
  (exists c, value (glfwWindowShouldClose window) w1 = Done c /\ c <> 0) /\
  value (render_loop env (S fuel) window shaderProgram VAO) w1 = Done tt /\
  calls_of (render_loop env (S fuel) window shaderProgram VAO) w1 =
    [C_glfwWindowShouldClose window].
Proof.
  intros Hk body w1.
  assert (Hd : escape_down (sys w) = true).
  { unfold escape_down. unfold value, glfwGetKey in Hk. revert Hk. run_prog.
    intros Hk. injection Hk as ->. reflexivity. }
  assert (Hc : should_close (sys w1) <> 0).
  { apply (body_frame env window shaderProgram VAO w). right. exact Hd. }
  split.
  { unfold body. rewrite (calls_of_app _ _ _ (body_trace env window shaderProgram VAO w)), Hd.
    simpl. auto. }
  split; [exact Hc|]. split.
  { exists (should_close (sys w1)). split; [reflexivity|exact Hc]. }
  assert (Hr : render_loop env (S fuel) window shaderProgram VAO w1 =
               (Done tt, exec (glfwWindowShouldClose window) w1)).
  { rewrite render_loop_unfold.
    destruct (Z.eqb_spec (should_close (sys w1)) 0); [contradiction|reflexivity]. }
  split.
  - unfold value. rewrite Hr. reflexivity.
  - apply calls_of_app. unfold exec at 1. rewrite Hr. reflexivity.
Qed.

Lemma escape_ends_loop_witness :
  value (glfwGetKey 4096 GLFW_KEY_ESCAPE)
        (iterate env_ok 4096 3 1 3 (w_loop env_ok)) = Done GLFW_PRESS /\
  calls_of (render_loop env_ok 5 4096 3 1)
           (exec (render_loop_body env_ok 4096 3 1)
                 (iterate env_ok 4096 3 1 3 (w_loop env_ok))) =
    [C_glfwWindowShouldClose 4096].
Proof.
  split; [reflexivity|].
  apply (escape_ends_loop env_ok 4096 3 1
           (iterate env_ok 4096 3 1 3 (w_loop env_ok)) 4).
  reflexivity.
Defined.

(* ------------------------------------------------------------------ *)
(** ** Resize *)

(** C8: when a framebuffer-resize event with dimensions
    (new_width, new_height) is delivered to a window on which
    [framebuffer_size_callback] is registered, as [main] registers it, the
    callback is called with these dimensions, its one call is
    [glViewport 0 0 new_width new_height], and afterwards the viewport has
    origin (0,0) and exactly the dimensions of the framebuffer.  Framebuffer
    dimensions are not negative. *)
Theorem resize_updates_viewport (w : World) (new_width new_height : Z) :
  fb_callback (sys w) = Some cb_framebuffer_size_callback ->
  0 <= new_width -> 0 <= new_height ->
  let w' := exec (deliver (EvFramebufferSize new_width new_height)) w in
  calls_of (deliver (EvFramebufferSize new_width new_height)) w =
    [C_glViewport 0 0 new_width new_height] /\
  framebuffer (sys w') = (new_width, new_height) /\
  viewport (sys w') = (0, 0, new_width, new_height) /\
  viewport (sys w') = (0, 0, fst (framebuffer (sys w')), snd (framebuffer (sys w'))).
Proof.
  intros Hcb Hw Hh w'. split.
  { apply calls_of_app. rewrite deliver_trace, Hcb. reflexivity. }
  subst w'. unfold deliver, invoke, framebuffer_size_callback, glViewport, exec.
  run_prog. rewrite Hcb. run_prog.
  replace ((new_width <? 0) || (new_height <? 0)) with false.
  - run_prog. repeat split.
  - symmetry. apply orb_false_iff. split; apply Z.ltb_ge; assumption.
Qed.

Lemma resize_updates_viewport_witness :
  viewport (sys (exec (deliver (EvFramebufferSize 1024 768)) (w_loop env_ok)))
  = (0, 0, 1024, 768).
Proof.
  apply (resize_updates_viewport (w_loop env_ok) 1024 768);
    [reflexivity | lia | lia].
Defined.

(** The invariant of the data model: with the callback registered and no
    negative size reported, the viewport is the whole framebuffer whenever
    the loop condition is checked. *)
Lemma deliver_covers ev w :
  fb_callback (sys w) = Some cb_framebuffer_size_callback ->
  sane_sizes [ev] -> covers (sys w) -> covers (sys (exec (deliver ev) w)).
Proof.
  intros Hcb Hs Hc. destruct ev as [k a|wd ht|]; try exact Hc.
  destruct (Hs wd ht (or_introl eq_refl)) as [Hw Hh].
  unfold covers, deliver, invoke, framebuffer_size_callback, glViewport, exec.
  run_prog. rewrite Hcb. run_prog.
  replace ((wd <? 0) || (ht <? 0)) with false.
  - reflexivity.
  - symmetry. apply orb_false_iff. split; apply Z.ltb_ge; assumption.
Qed.

Lemma dispatch_covers evs : forall w,
  fb_callback (sys w) = Some cb_framebuffer_size_callback ->
  sane_sizes evs -> covers (sys w) -> covers (sys (exec (dispatch evs) w)).
Proof.
  induction evs as [|ev evs IH]; intros w Hcb Hs Hc; [exact Hc|].
  unfold exec. rewrite dispatch_cons. apply IH.
  - destruct (deliver_frame ev w) as (_ & _ & H & _). rewrite H. exact Hcb.
  - intros wd ht Hin. apply Hs. right. exact Hin.
  - apply deliver_covers; [exact Hcb| |exact Hc].
    intros wd ht [Hin|[]]. apply Hs. left. exact Hin.
Qed.

Lemma loop_step_covers env window shaderProgram VAO w :
  fb_callback (sys w) = Some cb_framebuffer_size_callback ->
  sane_sizes (events env (polls (sys w))) -> covers (sys w) ->
  covers (sys (loop_step env window shaderProgram VAO w)).
Proof.
  intros Hcb Hs Hc. unfold loop_step, exec at 1. rewrite body_run.
  change (sys (exec (glfwWindowShouldClose window) w)) with (sys w).
  apply dispatch_covers; cbn [sys].
  - destruct (escape_down (sys w)); exact Hcb.
  - exact Hs.
  - destruct (escape_down (sys w)); exact Hc.
Qed.

Lemma viewport_covers_framebuffer env n :
  (forall k, sane_sizes (events env k)) ->
  forall w,
    fb_callback (sys w) = Some cb_framebuffer_size_callback -> covers (sys w) ->
    let s := sys (iterate env (window_ptr env) (create_program env)
                    (gen_vertex_array env) n w) in
    fb_callback s = Some cb_framebuffer_size_callback /\ covers s.
Proof.
  intros Hs. induction n as [|n IH]; intros w Hcb Hc; [split; assumption|].
  cbn [iterate]. apply IH.
  - destruct (loop_step_frame env (window_ptr env) (create_program env)
                (gen_vertex_array env) w) as (_ & _ & H & _).
    rewrite H. exact Hcb.
  - apply loop_step_covers; [exact Hcb|apply Hs|exact Hc].
Qed.

Lemma w_loop_covers env :
  fb_callback (sys (w_loop env)) = Some cb_framebuffer_size_callback /\
  covers (sys (w_loop env)).
Proof. split; reflexivity. Qed.

(* ------------------------------------------------------------------ *)
(** ** From the loop to the exit *)

Section Exit.

Variable env : Env.

Local Abbreviation loop fuel :=
  (render_loop env fuel (window_ptr env) (create_program env)
     (gen_vertex_array env)).

(** Worlds with the same library state go through the loop and the cleanup
    alike. *)
Lemma loop_and_cleanup_sys fuel w1 w2 :
  sys w1 = sys w2 ->
  value (loop_and_cleanup env fuel) w1 = value (loop_and_cleanup env fuel) w2 /\
  sys (exec (loop_and_cleanup env fuel) w1) =
  sys (exec (loop_and_cleanup env fuel) w2) /\
  exists l,
    trace (exec (loop_and_cleanup env fuel) w1) = trace w1 ++ l /\
    trace (exec (loop_and_cleanup env fuel) w2) = trace w2 ++ l /\
    (fuel <> O -> exists l', l = C_glfwWindowShouldClose (window_ptr env) :: l').
Proof.
  intros H.
  destruct (render_loop_sys (window_ptr env) (create_program env)
              (gen_vertex_array env) env fuel w1 w2 H)
    as (Hv & Hs & l & L1 & L2 & Lh).
  fold (loop fuel) in Hv, Hs, L1, L2.
  destruct (value (loop fuel) w2) as [[]|] eqn:V2.
  - pose proof (run_eta (loop fuel) w1) as R1. rewrite Hv in R1.
    pose proof (run_eta (loop fuel) w2) as R2. rewrite V2 in R2.
    unfold value, exec at 1 2 3 4.
    rewrite (loop_and_cleanup_done env fuel w1 _ R1).
    rewrite (loop_and_cleanup_done env fuel w2 _ R2).
    cbn [fst snd sys trace]. rewrite Hs, L1, L2. repeat split.
    exists (l ++ cleanup_calls env). rewrite <- !app_assoc. repeat split.
    intros Hf. destruct (Lh Hf) as (l' & ->). eexists; reflexivity.
  - unfold value, exec at 1 2 3 4.
    rewrite (loop_and_cleanup_timeout env fuel w1 Hv).
    rewrite (loop_and_cleanup_timeout env fuel w2 V2).
    cbn [fst snd]. fold (loop fuel). repeat split; [exact Hs|].
    exists l. repeat split; assumption.
Qed.

Lemma loop_and_cleanup_out fuel w :
  stdout (exec (loop_and_cleanup env fuel) w) = stdout w /\
  stderr (exec (loop_and_cleanup env fuel) w) = stderr w.
Proof.
  destruct (render_loop_frame env (window_ptr env) (create_program env)
              (gen_vertex_array env) fuel w) as (H1 & H2 & _).
  fold (loop fuel) in H1, H2.
  destruct (value (loop fuel) w) as [[]|] eqn:V.
  - pose proof (run_eta (loop fuel) w) as R. rewrite V in R.
    unfold exec. rewrite (loop_and_cleanup_done env fuel w _ R).
    cbn [snd stdout stderr]. split; assumption.
  - unfold exec. rewrite (loop_and_cleanup_timeout env fuel w V).
    cbn [snd]. split; assumption.
Qed.

End Exit.

(* ------------------------------------------------------------------ *)
(** ** Start-up and exit *)

(** C10: the result of [glfwInit] is not looked at.  Whatever it is, [main]
    goes on with the window hints and the request for a window; and when the
    initialisation has failed, that request returns NULL, so the program
    reports a window-creation failure, terminates GLFW and returns -1. *)
Theorem glfwInit_result_unchecked (env : Env) (fuel : nat) :
  (exists rest,
     trace (exec (main env fuel) w0) =
     [C_glfwInit;
      C_glfwWindowHint GLFW_CONTEXT_VERSION_MAJOR 3;
      C_glfwWindowHint GLFW_CONTEXT_VERSION_MINOR 3;
      C_glfwWindowHint GLFW_OPENGL_PROFILE GLFW_OPENGL_CORE_PROFILE] ++
     (if apple env then [C_glfwWindowHint GLFW_OPENGL_FORWARD_COMPAT GL_TRUE]
      else []) ++
     C_glfwCreateWindow 800 600 "LearnOpenGL - First Triangle" NULL NULL
       :: rest) /\
  (glfwInit_result env = GLFW_FALSE ->
   value (main env fuel) w0 = Done (-1) /\
   stdout (exec (main env fuel) w0) = ("Failed to create GLFW window" ++ nl)%string /\
   exists hints,
     trace (exec (main env fuel) w0) =
     C_glfwInit :: hints ++
     [C_glfwCreateWindow 800 600 "LearnOpenGL - First Triangle" NULL NULL;
      C_glfwTerminate]).
Proof.
  split.
  - destruct (creates_window env) eqn:Hw; [destruct (loader_ok env) eqn:Hl|].
    + unfold exec. rewrite (main_starts env fuel Hw Hl).
      destruct (loop_and_cleanup_sys env fuel (w_loop env) (w_loop env) eq_refl)
        as (_ & _ & l & L & _).
      unfold exec in L. rewrite L. cbn [w_loop trace].
      exists (context_calls env ++ shader_calls env ++ geometry_calls env ++ l).
      unfold startup_calls, hint_calls, title, SCR_WIDTH, SCR_HEIGHT.
      destruct (apple env); cbn [app]; rewrite <- ?app_assoc; reflexivity.
    + destruct (main_no_loader env fuel Hw Hl) as (_ & T & _). rewrite T.
      exists (context_calls env).
      unfold startup_calls, hint_calls, title, SCR_WIDTH, SCR_HEIGHT.
      destruct (apple env); reflexivity.
    + destruct (main_no_window env fuel Hw) as (_ & T & _). rewrite T.
      exists [C_glfwTerminate].
      unfold startup_calls, hint_calls, title, SCR_WIDTH, SCR_HEIGHT.
      destruct (apple env); reflexivity.
  - intros Hi.
    assert (Hw : creates_window env = false).
    { unfold creates_window. rewrite Hi. reflexivity. }
    destruct (main_no_window env fuel Hw) as (V & T & O & _).
    split; [exact V|]. split; [exact O|].
    exists (hint_calls env). rewrite T.
    unfold startup_calls, title, SCR_WIDTH, SCR_HEIGHT.
    cbn [app]. rewrite <- app_assoc. reflexivity.
Qed.

Lemma glfwInit_result_unchecked_witness :
  value (main env_no_glfw 5) w0 = Done (-1).
Proof.
  apply (proj2 (glfwInit_result_unchecked env_no_glfw 5)). reflexivity.
Defined.

(** Once the loop finds the close flag up, [main] cleans up and returns 0. *)
Lemma main_returns_0 (env : Env) (fuel n : nat) :
  creates_window env = true -> loader_ok env = true ->
  (n < fuel)%nat ->
  should_close
    (sys (iterate env (window_ptr env) (create_program env)
            (gen_vertex_array env) n (w_loop env))) <> 0 ->
  value (main env fuel) w0 = Done 0 /\
  should_close (sys (exec (main env fuel) w0)) <> 0 /\
  exists t, trace (exec (main env fuel) w0) =
            t ++ C_glfwWindowShouldClose (window_ptr env) :: cleanup_calls env.
Proof.
  intros Hw Hl Hn Hc.
  destruct (render_loop_exits env (window_ptr env) (create_program env)
              (gen_vertex_array env) n (w_loop env) fuel Hc Hn)
    as (k & _ & Hk & Hr).
  unfold value, exec. rewrite (main_starts env fuel Hw Hl).
  rewrite (loop_and_cleanup_done env fuel _ _ Hr). cbn [fst snd sys trace].
  split; [reflexivity|]. split; [exact Hk|].
  eexists. unfold glfwWindowShouldClose, exec. run_prog.
  rewrite <- app_assoc. reflexivity.
Qed.

(** C4: [main] returns -1 when no window is created, -1 when the window is
    there but [glewInit] does not return [GLEW_OK], and otherwise 0 as soon
    as the loop finds the close flag up (in particular after a poll has
    delivered a close request), after the cleanup calls that end with
    [glfwTerminate]; it returns nothing else.  [main] has no parameters, so
    the only inputs of the model are the answers of the environment. *)
Theorem exit_code (env : Env) (fuel : nat) :
  (creates_window env = false -> value (main env fuel) w0 = Done (-1)) /\
  (creates_window env = true -> loader_ok env = false ->
   value (main env fuel) w0 = Done (-1)) /\
  (creates_window env = true -> loader_ok env = true ->
   forall n, (n < fuel)%nat ->
     should_close
       (sys (iterate env (window_ptr env) (create_program env)
               (gen_vertex_array env) n (w_loop env))) <> 0 ->
     value (main env fuel) w0 = Done 0 /\
     should_close (sys (exec (main env fuel) w0)) <> 0 /\
     exists t, trace (exec (main env fuel) w0) =
               t ++ [C_glfwWindowShouldClose (window_ptr env);
                     C_glDeleteVertexArrays 1 (gen_vertex_array env);
                     C_glDeleteBuffers 1 (gen_buffer env);
                     C_glDeleteProgram (create_program env);
                     C_glfwTerminate]) /\
  (creates_window env = true -> loader_ok env = true ->
   forall n, In EvClose (events env n) -> (S n < fuel)%nat ->
     value (main env fuel) w0 = Done 0) /\
  (forall c, value (main env fuel) w0 = Done c ->
     c = if creates_window env && loader_ok env then 0 else -1).
Proof.
  split; [|split; [|split; [|split]]].
  - intros Hw. apply (main_no_window env fuel Hw).
  - intros Hw Hl. apply (main_no_loader env fuel Hw Hl).
  - intros Hw Hl n Hn Hc. exact (main_returns_0 env fuel n Hw Hl Hn Hc).
  - intros Hw Hl n Hin Hn.
    apply (main_returns_0 env fuel (S n) Hw Hl Hn).
    apply close_request_raises_flag. exact Hin.
  - intros c Hc.
    destruct (creates_window env) eqn:Hw; [destruct (loader_ok env) eqn:Hl|];
      cbn [andb].
    + unfold value in Hc. rewrite (main_starts env fuel Hw Hl) in Hc.
      fold (value (loop_and_cleanup env fuel) (w_loop env)) in Hc.
      rewrite loop_and_cleanup_value in Hc.
      destruct (value (render_loop env fuel _ _ _) (w_loop env));
        [injection Hc as <-; reflexivity|discriminate].
    + destruct (main_no_loader env fuel Hw Hl) as (V & _).
      rewrite V in Hc. injection Hc as <-. reflexivity.
    + destruct (main_no_window env fuel Hw) as (V & _).
      rewrite V in Hc. injection Hc as <-. reflexivity.
Qed.

Lemma exit_code_witness :
  value (main env_ok 5) w0 = Done 0 /\
  value (main env_no_loader 5) w0 = Done (-1) /\
  value (main env_no_glfw 5) w0 = Done (-1).
Proof.
  split; [|split].
  - apply (proj1 (proj2 (proj2 (exit_code env_ok 5))) eq_refl eq_refl 4%nat).
    + lia.
    + vm_compute. discriminate.
  - apply (proj1 (proj2 (exit_code env_no_loader 5))); reflexivity.
  - apply (proj1 (exit_code env_no_glfw 5)); reflexivity.
Defined.

(** C3 fails on the loader path: when the window is created but [glewInit]
    fails, [main] returns -1 without calling [glfwTerminate], and GLFW is
    still initialised when the process exits. *)
Theorem loader_failure_skips_terminate :
  value (main env_no_loader 5) w0 = Done (-1) /\
  ~ In C_glfwTerminate (trace (exec (main env_no_loader 5) w0)) /\
  glfw_ready (sys (exec (main env_no_loader 5) w0)) = true.
Proof.
  split; [reflexivity|]. split; [|reflexivity].
  vm_compute. intuition discriminate.
Qed.

(* ------------------------------------------------------------------ *)
(** ** Shader diagnostics *)

Lemma main_output (env : Env) (fuel : nat) :
  creates_window env = true -> loader_ok env = true ->
  stdout (exec (main env fuel) w0) = shader_report env /\
  stderr (exec (main env fuel) w0) = "".
Proof.
  intros Hw Hl. unfold exec. rewrite (main_starts env fuel Hw Hl).
  apply (loop_and_cleanup_out env fuel (w_loop env)).
Qed.

(** C2, as stated, fails: with a fragment shader that does not compile,
    nothing at all is written to standard error. *)
Lemma stderr_counterexample :
  ~ contains (stderr (exec (main env_broken_fragment 5) w0))
             "FRAGMENT::COMPILATION_FAILED".
Proof.
  intros (pre & post & H). vm_compute in H.
  destruct pre; discriminate H.
Qed.

(** C2, amended: whenever a shader stage fails to compile or the program
    fails to link, the header of that failure, the retrieved info log (the
    part that fits the 512-byte buffer) and a line feed are written to
    standard output; standard error stays empty.  With a broken fragment
    shader, standard output contains FRAGMENT::COMPILATION_FAILED. *)
Theorem diagnostics_on_stdout (env : Env) (fuel : nat) :
  creates_window env = true -> loader_ok env = true ->
  let out := stdout (exec (main env fuel) w0) in
  let vertexShader := create_shader env GL_VERTEX_SHADER in
  let fragmentShader := create_shader env GL_FRAGMENT_SHADER in
  let shaderProgram := create_program env in
  stderr (exec (main env fuel) w0) = "" /\
  (shader_iv env vertexShader GL_COMPILE_STATUS = 0 ->
   contains out ("ERROR::SHADER::VERTEX::COMPILATION_FAILED" ++ nl ++
                 clip (shader_info_log env vertexShader) ++ nl)) /\
  (shader_iv env fragmentShader GL_COMPILE_STATUS = 0 ->
   contains out ("ERROR::SHADER::FRAGMENT::COMPILATION_FAILED" ++ nl ++
                 clip (shader_info_log env fragmentShader) ++ nl) /\
   contains out "FRAGMENT::COMPILATION_FAILED") /\
  (program_iv env shaderProgram GL_LINK_STATUS = 0 ->
   contains out ("ERROR::SHADER::PROGRAM::LINKING_FAILED" ++ nl ++
                 clip (program_info_log env shaderProgram) ++ nl)).
Proof.
  intros Hw Hl out vertexShader fragmentShader shaderProgram.
  destruct (main_output env fuel Hw Hl) as (Ho & He).
  split; [exact He|].
  subst out. rewrite Ho.
  unfold shader_report, stage_report, link_report.
  fold vertexShader fragmentShader shaderProgram.
  generalize (clip (shader_info_log env vertexShader)) as lv.
  generalize (clip (shader_info_log env fragmentShader)) as lf.
  generalize (clip (program_info_log env shaderProgram)) as lp.
  intros lp lf lv.
  split; [|split].
  - intros ->. cbn [Z.eqb]. eexists "", _. reflexivity.
  - intros ->. cbn [Z.eqb].
    match goal with |- context [(?A ++ _ ++ ?C)%string] =>
      generalize A as a; generalize C as c; intros c a end.
    split.
    + exists a, c. reflexivity.
    + exists (a ++ "ERROR::SHADER::")%string, ((nl ++ lf ++ nl) ++ c)%string.
      rewrite (append_assoc a). reflexivity.
  - intros ->. cbn [Z.eqb].
    match goal with |- context [(?A ++ ?B ++ _)%string] =>
      generalize A as a; generalize B as b; intros b a end.
    exists (a ++ b)%string, "".
    rewrite (append_assoc a b), append_nil_r. reflexivity.
Qed.

Lemma diagnostics_on_stdout_witness :
  contains (stdout (exec (main env_broken_fragment 5) w0))
           "FRAGMENT::COMPILATION_FAILED".
Proof.
  apply (diagnostics_on_stdout env_broken_fragment 5 eq_refl eq_refl).
  reflexivity.
Defined.

(* ------------------------------------------------------------------ *)
(** ** A failed shader build does not stop the program *)

Lemma control_flow_app (t1 t2 : list call) :
  control_flow (t1 ++ t2) = control_flow t1 ++ control_flow t2.
Proof. apply filter_app. Qed.

Lemma control_flow_shader_calls (env : Env) :
  control_flow (shader_calls env) =
  let vertexShader := create_shader env GL_VERTEX_SHADER in
  let fragmentShader := create_shader env GL_FRAGMENT_SHADER in
  let shaderProgram := create_program env in
  [C_glCreateShader GL_VERTEX_SHADER;
   C_glShaderSource vertexShader 1 vertexShaderSource NULL;
   C_glCompileShader vertexShader;
   C_glGetShaderiv vertexShader GL_COMPILE_STATUS;
   C_glCreateShader GL_FRAGMENT_SHADER;
   C_glShaderSource fragmentShader 1 fragmentShaderSource NULL;
   C_glCompileShader fragmentShader;
   C_glGetShaderiv fragmentShader GL_COMPILE_STATUS;
   C_glCreateProgram;
   C_glAttachShader shaderProgram vertexShader;
   C_glAttachShader shaderProgram fragmentShader;
   C_glLinkProgram shaderProgram;
   C_glGetProgramiv shaderProgram GL_LINK_STATUS;
   C_glDeleteShader vertexShader; C_glDeleteShader fragmentShader].
Proof.
  unfold shader_calls, stage_calls, link_calls. cbv zeta.
  destruct (shader_iv env (create_shader env GL_VERTEX_SHADER) GL_COMPILE_STATUS =? 0);
  destruct (shader_iv env (create_shader env GL_FRAGMENT_SHADER) GL_COMPILE_STATUS =? 0);
  destruct (program_iv env (create_program env) GL_LINK_STATUS =? 0);
  reflexivity.
Qed.

Lemma loop_and_cleanup_outcome env siv slog piv plog fuel w :
  loop_and_cleanup (with_shader_outcome env siv slog piv plog) fuel w =
  loop_and_cleanup env fuel w.
Proof.
  unfold loop_and_cleanup, bind. cbn [with_shader_outcome window_ptr
    create_program gen_vertex_array gen_buffer].
  rewrite (render_loop_events _ _ _ (with_shader_outcome env siv slog piv plog)
             env fuel eq_refl w).
  reflexivity.
Qed.

(** C5: however compiling and linking turn out, [main] goes on to the
    geometry setup and into the render loop.  Changing the outcome of the
    shader build changes neither the value [main] returns, nor the library
    state it leaves, nor its calls apart from the ones that fetch an info
    log; and the first call after the geometry setup is the first check of
    the loop condition. *)
Theorem shader_failure_continues (env : Env)
    (siv : Z -> Z -> Z) (slog : Z -> string)
    (piv : Z -> Z -> Z) (plog : Z -> string) (fuel : nat) :
  creates_window env = true -> loader_ok env = true ->
  let env' := with_shader_outcome env siv slog piv plog in
  value (main env' fuel) w0 = value (main env fuel) w0 /\
  sys (exec (main env' fuel) w0) = sys (exec (main env fuel) w0) /\
  control_flow (trace (exec (main env' fuel) w0)) =
  control_flow (trace (exec (main env fuel) w0)) /\
  stdout (exec (main env' fuel) w0) = shader_report env' /\
  (fuel <> O ->
   exists rest,
     trace (exec (main env' fuel) w0) =
     startup_calls env ++ context_calls env ++ shader_calls env' ++
     geometry_calls env ++ C_glfwWindowShouldClose (window_ptr env) :: rest).
Proof.
  intros Hw Hl env'.
  assert (Hw' : creates_window env' = true) by exact Hw.
  assert (Hl' : loader_ok env' = true) by exact Hl.
  destruct (main_output env' fuel Hw' Hl') as (Ho & _).
  assert (E' : main env' fuel w0 = loop_and_cleanup env fuel (w_loop env')).
  { rewrite (main_starts env' fuel Hw' Hl'). apply loop_and_cleanup_outcome. }
  pose proof (main_starts env fuel Hw Hl) as E.
  destruct (loop_and_cleanup_sys env fuel (w_loop env') (w_loop env) eq_refl)
    as (Hv & Hs & l & L1 & L2 & Lh).
  unfold value, exec in *. rewrite E', E.
  split; [exact Hv|]. split; [exact Hs|]. split; [|split].
  - rewrite L1, L2. cbn [w_loop trace]. rewrite !control_flow_app.
    rewrite !control_flow_shader_calls. reflexivity.
  - rewrite E' in Ho. exact Ho.
  - intros Hf. destruct (Lh Hf) as (l' & ->). exists l'.
    rewrite L1. cbn [w_loop trace]. rewrite <- !app_assoc. reflexivity.
Qed.

Lemma shader_failure_continues_witness :
  value (main env_broken_fragment 5) w0 = value (main env_ok 5) w0 /\
  control_flow (trace (exec (main env_broken_fragment 5) w0)) =
  control_flow (trace (exec (main env_ok 5) w0)).
Proof.
  pose proof (shader_failure_continues env_ok
                (fun shader _ => if shader =? 2 then 0 else 1)
                (fun _ => "0(5) : error C0000: syntax error")
                (fun _ _ => 1) (fun _ => "") 5 eq_refl eq_refl) as H.
  split; [apply H|apply H].
Defined.

(* ------------------------------------------------------------------ *)
(** ** Geometry *)

(** C7: the geometry setup makes exactly these calls, in this order:
    generate the vertex-array and the buffer handle; bind the vertex array;
    bind the buffer; upload the 72 bytes of [vertices] with the static-draw
    hint; declare attribute 0 as 3 floats, not normalised, stride 12,
    offset 0; enable attribute 0; unbind the array buffer, then the vertex
    array.  In [main] they come right after the shader build. *)
Theorem geometry_setup_order (env : Env) :
  let VAO := gen_vertex_array env in
  let VBO := gen_buffer env in
  let protocol :=
    [C_glGenVertexArrays 1; C_glGenBuffers 1;
     C_glBindVertexArray VAO;
     C_glBindBuffer GL_ARRAY_BUFFER VBO;
     C_glBufferData GL_ARRAY_BUFFER 72 vertices GL_STATIC_DRAW;
     C_glVertexAttribPointer 0 3 GL_FLOAT GL_FALSE 12 0;
     C_glEnableVertexAttribArray 0;
     C_glBindBuffer GL_ARRAY_BUFFER 0;
     C_glBindVertexArray 0] in
  (forall w, value (setup_geometry env) w = Done (VBO, VAO) /\
             calls_of (setup_geometry env) w = protocol) /\
  (creates_window env = true -> loader_ok env = true ->
   forall fuel, exists rest,
     trace (exec (main env fuel) w0) =
     (startup_calls env ++ context_calls env ++ shader_calls env) ++
     protocol ++ rest).
Proof.
  intros VAO VBO protocol. split.
  - intros w. unfold value, calls_of, exec. rewrite setup_geometry_run.
    split; [reflexivity|]. cbn [fst snd trace].
    rewrite skipn_app, skipn_all, Nat.sub_diag. reflexivity.
  - intros Hw Hl fuel. unfold exec. rewrite (main_starts env fuel Hw Hl).
    destruct (loop_and_cleanup_sys env fuel (w_loop env) (w_loop env) eq_refl)
      as (_ & _ & l & L & _).
    unfold exec in L. rewrite L. exists l. cbn [w_loop trace].
    rewrite <- !app_assoc. reflexivity.
Qed.

Lemma geometry_setup_order_witness :
  exists rest,
    trace (exec (main env_ok 5) w0) =
    (startup_calls env_ok ++ context_calls env_ok ++ shader_calls env_ok) ++
    [C_glGenVertexArrays 1; C_glGenBuffers 1;
     C_glBindVertexArray 1;
     C_glBindBuffer GL_ARRAY_BUFFER 1;
     C_glBufferData GL_ARRAY_BUFFER 72 vertices GL_STATIC_DRAW;
     C_glVertexAttribPointer 0 3 GL_FLOAT GL_FALSE 12 0;
     C_glEnableVertexAttribArray 0;
     C_glBindBuffer GL_ARRAY_BUFFER 0;
     C_glBindVertexArray 0] ++ rest.
Proof.
  apply (proj2 (geometry_setup_order env_ok) eq_refl eq_refl 5%nat).
Defined.

(* ------------------------------------------------------------------ *)
(** ** The shape of a run *)

Lemma count_app (f : call -> bool) (t1 t2 : list call) :
  count f (t1 ++ t2) = (count f t1 + count f t2)%nat.
Proof. unfold count. rewrite filter_app, length_app. reflexivity. Qed.

Lemma event_calls_resize (env : Env) (cb : option callback) (n : nat) :
  Forall (resize_call env) (flat_map (event_calls cb) (events env n)).
Proof.
  assert (G : forall evs, incl evs (events env n) ->
                Forall (resize_call env) (flat_map (event_calls cb) evs)).
  { induction evs as [|ev evs IH]; intros Hin; [constructor|].
    simpl. apply Forall_app. split.
    - destruct ev as [k a|wd ht|]; destruct cb as [[]|]; simpl;
        try constructor; try constructor.
      exists n, wd, ht. split; [reflexivity|]. apply Hin. left. reflexivity.
    - apply IH. intros x Hx. apply Hin. right. exact Hx. }
  apply G. apply incl_refl.
Qed.

Section Shape.

Variable env : Env.
Variables window shaderProgram VAO : Z.

Local Abbreviation the_loop fuel := (render_loop env fuel window shaderProgram VAO).
Local Abbreviation shape := (loop_trace env window shaderProgram VAO).
Local Abbreviation run_step := (loop_step env window shaderProgram VAO).
Local Abbreviation run_iter := (iterate env window shaderProgram VAO).

(** The calls of the loop are whole iterations; it either ends on a check
    after fewer iterations than it has fuel, or runs out of fuel after as
    many. *)
Lemma render_loop_shape fuel : forall w,
  exists ended frames l,
    trace (exec (the_loop fuel) w) = trace w ++ l /\
    shape ended frames l /\
    value (the_loop fuel) w = (if ended then Done tt else OutOfFuel) /\
    (if ended then frames < fuel else frames = fuel)%nat.
Proof.
  induction fuel as [|fuel IH]; intros w.
  - exists false, O, []. rewrite app_nil_r. repeat split. constructor.
  - unfold value, exec. rewrite render_loop_unfold.
    destruct (should_close (sys w) =? 0).
    + destruct (IH (run_step w)) as (ended & frames & l & T & Hs & V & F).
      exists ended, (S frames).
      eexists. unfold value, exec in *. rewrite T. split; [|split; [|split]].
      * unfold loop_step. rewrite body_trace.
        change (trace (exec (glfwWindowShouldClose window) w))
          with (trace w ++ [C_glfwWindowShouldClose window]).
        rewrite <- !app_assoc. cbn [app]. reflexivity.
      * constructor; [apply event_calls_resize|exact Hs].
      * exact V.
      * destruct ended; lia.
    + exists true, O, [C_glfwWindowShouldClose window].
      repeat split; [constructor|lia].
Qed.

(** The loop in terms of [iterate]: it ends at the first check that finds
    the flag up, or it goes through as many iterations as it has fuel. *)
Lemma render_loop_iterate fuel : forall w,
  (exists k, (k < fuel)%nat /\ should_close (sys (run_iter k w)) <> 0 /\
     the_loop fuel w =
     (Done tt, exec (glfwWindowShouldClose window) (run_iter k w))) \/
  (the_loop fuel w = (OutOfFuel, run_iter fuel w) /\
   forall k, (k < fuel)%nat -> should_close (sys (run_iter k w)) = 0).
Proof.
  induction fuel as [|fuel IH]; intros w.
  - right. split; [reflexivity|]. intros k Hk. lia.
  - rewrite render_loop_unfold.
    destruct (Z.eqb_spec (should_close (sys w)) 0) as [E|E].
    + destruct (IH (run_step w)) as [(k & Hk & Hc & Hr)|(Hr & Hz)].
      * left. exists (S k). split; [lia|]. split; [exact Hc|exact Hr].
      * right. split; [exact Hr|]. intros [|k] Hk; [exact E|].
        apply (Hz k). lia.
    + left. exists O. split; [lia|]. split; [exact E|reflexivity].
Qed.

Lemma loop_trace_forall (P : call -> Prop) ended frames l :
  P (C_glfwWindowShouldClose window) ->
  (forall pressed, Forall P (frame_calls pressed window shaderProgram VAO)) ->
  (forall c, resize_call env c -> P c) ->
  shape ended frames l -> Forall P l.
Proof.
  intros Hc Hf Hr Hs. induction Hs as [| |ended frames pressed resizes rest R Hs IH].
  - constructor.
  - constructor; [exact Hc|constructor].
  - constructor; [exact Hc|]. apply Forall_app. split; [apply Hf|].
    apply Forall_app. split; [|exact IH].
    eapply Forall_impl; [|exact R]. exact Hr.
Qed.

Lemma filter_resizes (f : call -> bool) resizes :
  (forall x y w h, f (C_glViewport x y w h) = false) ->
  Forall (resize_call env) resizes -> filter f resizes = [].
Proof.
  intros Hf R. induction R as [|c resizes (n & wd & ht & -> & _) R IH];
    [reflexivity|].
  simpl. rewrite Hf. exact IH.
Qed.

(** Of a kind of call made once per iteration and not by the callback,
    there are as many as iterations. *)
Lemma loop_trace_count (f : call -> bool) ended frames l :
  f (C_glfwWindowShouldClose window) = false ->
  (forall pressed, count f (frame_calls pressed window shaderProgram VAO) = 1%nat) ->
  (forall x y w h, f (C_glViewport x y w h) = false) ->
  shape ended frames l -> count f l = frames.
Proof.
  intros Hc Hf Hv Hs. induction Hs as [| |ended frames pressed resizes rest R Hs IH].
  - reflexivity.
  - unfold count. simpl. rewrite Hc. reflexivity.
  - change (count f ([C_glfwWindowShouldClose window] ++
                      frame_calls pressed window shaderProgram VAO ++
                      resizes ++ rest) = S frames).
    rewrite !count_app, Hf, IH.
    unfold count at 2. rewrite (filter_resizes f resizes Hv R).
    unfold count. cbn [filter]. rewrite Hc. reflexivity.
Qed.

Lemma loop_trace_checks ended frames l :
  shape ended frames l ->
  count is_check l = (frames + if ended then 1 else 0)%nat.
Proof.
  intros Hs. induction Hs as [| |ended frames pressed resizes rest R Hs IH].
  - reflexivity.
  - reflexivity.
  - change (count is_check ([C_glfwWindowShouldClose window] ++
                      frame_calls pressed window shaderProgram VAO ++
                      resizes ++ rest)
            = (S frames + if ended then 1 else 0)%nat).
    rewrite !count_app, IH.
    unfold count at 3.
    rewrite (filter_resizes is_check resizes (fun _ _ _ _ => eq_refl) R).
    destruct pressed; reflexivity.
Qed.

End Shape.

(** The whole trace of a run that got past the loader. *)
Lemma main_shape (env : Env) (fuel : nat) :
  creates_window env = true -> loader_ok env = true ->
  exists ended frames l,
    loop_trace env (window_ptr env) (create_program env) (gen_vertex_array env)
      ended frames l /\
    trace (exec (main env fuel) w0) =
      (startup_calls env ++ context_calls env) ++
      (shader_calls env ++ geometry_calls env) ++
      l ++ (if ended then cleanup_calls env else []) /\
    value (main env fuel) w0 = (if ended then Done 0 else OutOfFuel) /\
    (if ended then frames < fuel else frames = fuel)%nat.
Proof.
  intros Hw Hl.
  destruct (render_loop_shape env (window_ptr env) (create_program env)
              (gen_vertex_array env) fuel (w_loop env))
    as (ended & frames & l & T & Hs & V & F).
  exists ended, frames, l. split; [exact Hs|].
  unfold value, exec. rewrite (main_starts env fuel Hw Hl).
  destruct ended.
  - pose proof (run_eta (render_loop env fuel (window_ptr env)
                  (create_program env) (gen_vertex_array env)) (w_loop env)) as R.
    rewrite V in R. rewrite (loop_and_cleanup_done env fuel _ _ R).
    cbn [fst snd trace]. rewrite T. cbn [w_loop trace].
    split; [|split; [reflexivity|exact F]].
    rewrite <- !app_assoc. reflexivity.
  - rewrite (loop_and_cleanup_timeout env fuel _ V). cbn [fst snd].
    rewrite T. cbn [w_loop trace].
    split; [|split; [reflexivity|exact F]].
    rewrite app_nil_r, <- !app_assoc. reflexivity.
Qed.

(* ------------------------------------------------------------------ *)
(** ** Facts about lists of calls *)

Lemma in_middle {A} (t pre post : list A) (x : A) :
  t = pre ++ x :: post -> In x t.
Proof. intros ->. apply in_or_app. right. left. reflexivity. Qed.

(** An element that is not in [a] can only be found in [a ++ b] behind
    [a]. *)
Lemma split_behind {A} (P : A -> Prop) (a : list A) :
  forall b pre x post,
    a ++ b = pre ++ x :: post -> Forall P a -> ~ P x ->
    exists pre', pre = a ++ pre' /\ b = pre' ++ x :: post.
Proof.
  induction a as [|y a IH]; intros b pre x post H Ha Hx.
  - exists pre. split; [reflexivity|exact H].
  - inversion Ha as [|? ? Hy Ha']; subst.
    destruct pre as [|z pre]; simpl in H; injection H as -> H.
    + contradiction.
    + destruct (IH b pre x post H Ha' Hx) as (pre' & -> & Hb).
      exists pre'. split; [reflexivity|exact Hb].
Qed.

(** An element that occurs in [a ++ b] occurs in [a] or, behind [a], in
    [b]. *)
Lemma split_cases {A} (a : list A) :
  forall b pre x post,
    a ++ b = pre ++ x :: post ->
    (exists a', a = pre ++ x :: a' /\ post = a' ++ b) \/
    (exists pre', pre = a ++ pre' /\ b = pre' ++ x :: post).
Proof.
  induction a as [|y a IH]; intros b pre x post H.
  - right. exists pre. split; [reflexivity|exact H].
  - destruct pre as [|z pre]; simpl in H; injection H as -> H.
    + left. exists a. split; [reflexivity|symmetry; exact H].
    + destruct (IH b pre x post H) as [(a' & -> & ->)|(pre' & -> & Hb)].
      * left. exists a'. split; reflexivity.
      * right. exists pre'. split; [reflexivity|exact Hb].
Qed.

(** Behind the only occurrence of [x], at the end, there is nothing. *)
Lemma nothing_behind_last {A} (a : list A) (x : A) :
  forall pre post,
    a ++ [x] = pre ++ x :: post -> Forall (fun y => y <> x) a -> post = [].
Proof.
  intros pre post H Ha.
  destruct (split_behind (fun y => y <> x) a [x] pre x post H Ha
              (fun C => C eq_refl)) as (pre' & _ & Hb).
  destruct pre' as [|z pre']; simpl in Hb.
  - injection Hb as <-. reflexivity.
  - injection Hb as _ Hb. destruct pre'; discriminate Hb.
Qed.

Lemma count_none (f : call -> bool) (t : list call) :
  Forall (fun c => f c = false) t -> count f t = O.
Proof.
  intros H. unfold count. induction H as [|c t Hc H IH]; [reflexivity|].
  simpl. rewrite Hc. exact IH.
Qed.

(** Settles [Forall P] on the calls made outside the loop, whatever the
    platform and the outcome of the shader build, when [P] is settled on
    each single call by [tac]. *)
Ltac forall_static env tac :=
  unfold startup_calls, hint_calls, context_calls, shader_calls, stage_calls,
    link_calls, geometry_calls, cleanup_calls;
  cbv zeta;
  destruct (apple env);
  destruct (shader_iv env (create_shader env GL_VERTEX_SHADER) GL_COMPILE_STATUS =? 0);
  destruct (shader_iv env (create_shader env GL_FRAGMENT_SHADER) GL_COMPILE_STATUS =? 0);
  destruct (program_iv env (create_program env) GL_LINK_STATUS =? 0);
  cbn [app];
  repeat (apply Forall_cons; [tac|]); apply Forall_nil.

Lemma frame_calls_forall (P : call -> Prop) pressed window shaderProgram VAO :
  P (C_glfwGetKey window GLFW_KEY_ESCAPE) ->
  P (C_glfwSetWindowShouldClose window 1) ->
  P (C_glClearColor 0.15 0.15 0.15 1.0) ->
  P (C_glClear GL_COLOR_BUFFER_BIT) ->
  P (C_glUseProgram shaderProgram) ->
  P (C_glBindVertexArray VAO) ->
  P (C_glDrawArrays GL_TRIANGLES 0 6) ->
  P (C_glfwSwapBuffers window) ->
  P C_glfwPollEvents ->
  Forall P (frame_calls pressed window shaderProgram VAO).
Proof.
  intros. unfold frame_calls. destruct pressed; cbn [app];
    repeat (apply Forall_cons; [assumption|]); apply Forall_nil.
Qed.

(** A property of every call of a run that got past the loader. *)
Lemma main_forall (P : call -> Prop) (env : Env) (fuel : nat) :
  creates_window env = true -> loader_ok env = true ->
  Forall P (startup_calls env ++ context_calls env) ->
  Forall P (shader_calls env ++ geometry_calls env) ->
  P (C_glfwWindowShouldClose (window_ptr env)) ->
  (forall pressed,
     Forall P (frame_calls pressed (window_ptr env) (create_program env)
                 (gen_vertex_array env))) ->
  (forall c, resize_call env c -> P c) ->
  Forall P (cleanup_calls env) ->
  Forall P (trace (exec (main env fuel) w0)).
Proof.
  intros Hw Hl Ha Hb Hc Hf Hr Hz.
  destruct (main_shape env fuel Hw Hl) as (ended & frames & l & Hs & T & _).
  rewrite T.
  apply Forall_app; split; [exact Ha|].
  apply Forall_app; split; [exact Hb|].
  apply Forall_app; split.
  - exact (loop_trace_forall env _ _ _ P ended frames l Hc Hf Hr Hs).
  - destruct ended; [exact Hz|constructor].
Qed.

(** Calls of a kind that is not made outside the loop are counted in the
    loop alone. *)
Lemma count_outside_loop (f : call -> bool) (env : Env) (ended : bool)
    (l : list call) :
  Forall (fun c => f c = false) (startup_calls env ++ context_calls env) ->
  Forall (fun c => f c = false) (shader_calls env ++ geometry_calls env) ->
  Forall (fun c => f c = false) (cleanup_calls env) ->
  count f ((startup_calls env ++ context_calls env) ++
           (shader_calls env ++ geometry_calls env) ++
           l ++ (if ended then cleanup_calls env else [])) = count f l.
Proof.
  intros Ha Hb Hc.
  rewrite (count_app f (startup_calls env ++ context_calls env)).
  rewrite (count_app f (shader_calls env ++ geometry_calls env)).
  rewrite (count_app f l).
  rewrite (count_none f _ Ha), (count_none f _ Hb).
  destruct ended;
    [rewrite (count_none f _ Hc)|change (count f []) with O]; lia.
Qed.

(* ------------------------------------------------------------------ *)
(** ** Properties of whole runs *)

(** X1: in every run that gets past the loader, the loop clears, draws,
    swaps and polls once per iteration: these four calls occur equally
    often.  A run that returns has checked the loop condition once more
    than it has drawn, and has drawn fewer frames than it had fuel; a run
    that is cut off has drawn as many frames as it had fuel and checked as
    often. *)
Theorem frame_accounting (env : Env) (fuel : nat) :
  creates_window env = true -> loader_ok env = true ->
  let t := trace (exec (main env fuel) w0) in
  exists frames,
    count is_clear t = frames /\ count is_draw t = frames /\
    count is_swap t = frames /\ count is_poll t = frames /\
    ((value (main env fuel) w0 = Done 0 /\
      count is_check t = S frames /\ (frames < fuel)%nat) \/
     (value (main env fuel) w0 = OutOfFuel /\
      count is_check t = frames /\ frames = fuel)).
Proof.
  intros Hw Hl t.
  destruct (main_shape env fuel Hw Hl) as (ended & frames & l & Hs & T & V & F).
  exists frames. subst t. rewrite T.
  rewrite !(count_outside_loop _ env ended l);
    try (forall_static env ltac:(reflexivity)).
  rewrite (loop_trace_checks env _ _ _ ended frames l Hs).
  rewrite !(fun f H1 H2 H3 =>
              loop_trace_count env _ _ _ f ended frames l H1 H2 H3 Hs);
    try reflexivity; try (intros []; reflexivity).
  repeat split.
  destruct ended; [left|right]; (split; [exact V|]); (split; [lia|exact F]).
Qed.

Lemma frame_accounting_witness :
  exists frames,
    count is_draw (trace (exec (main env_ok 9) w0)) = frames /\
    count is_check (trace (exec (main env_ok 9) w0)) = S frames.
Proof.
  destruct (frame_accounting env_ok 9 eq_refl eq_refl)
    as (frames & _ & Hd & _ & _ & [(_ & Hc & _)|(V & _)]).
  - exists frames. split; [exact Hd|exact Hc].
  - vm_compute in V. discriminate V.
Defined.

(** X2: in no run is anything called after [glfwTerminate]: wherever that
    call occurs in the trace, it is the last call. *)
Theorem terminate_is_last (env : Env) (fuel : nat) (pre post : list call) :
  trace (exec (main env fuel) w0) = pre ++ C_glfwTerminate :: post ->
  post = [].
Proof.
  intros H.
  destruct (creates_window env) eqn:Hw; [destruct (loader_ok env) eqn:Hl|].
  - destruct (main_shape env fuel Hw Hl) as (ended & frames & l & Hs & T & _).
    rewrite T in H.
    assert (Hl' : Forall (fun c => c <> C_glfwTerminate) l).
    { apply (loop_trace_forall env (window_ptr env) (create_program env)
               (gen_vertex_array env) _ ended frames l);
        [discriminate| | |exact Hs].
      - intros pressed. apply frame_calls_forall; discriminate.
      - intros c (n & wd & ht & -> & _). discriminate. }
    assert (Ha : Forall (fun c => c <> C_glfwTerminate)
                   (startup_calls env ++ context_calls env)).
    { forall_static env ltac:(discriminate). }
    assert (Hb : Forall (fun c => c <> C_glfwTerminate)
                   (shader_calls env ++ geometry_calls env)).
    { forall_static env ltac:(discriminate). }
    destruct ended.
    + unfold cleanup_calls in H.
      change [C_glDeleteVertexArrays 1 (gen_vertex_array env);
              C_glDeleteBuffers 1 (gen_buffer env);
              C_glDeleteProgram (create_program env); C_glfwTerminate]
        with ([C_glDeleteVertexArrays 1 (gen_vertex_array env);
               C_glDeleteBuffers 1 (gen_buffer env);
               C_glDeleteProgram (create_program env)] ++ [C_glfwTerminate])
        in H.
      rewrite (app_assoc l), (app_assoc (shader_calls env ++ geometry_calls env)),
        (app_assoc (startup_calls env ++ context_calls env)) in H.
      apply (nothing_behind_last _ _ pre post H).
      apply Forall_app; split; [exact Ha|].
      apply Forall_app; split; [exact Hb|].
      apply Forall_app; split; [exact Hl'|].
      repeat (apply Forall_cons; [discriminate|]). apply Forall_nil.
    + exfalso. apply in_middle in H. revert H.
      assert (Hall : Forall (fun c => c <> C_glfwTerminate)
                ((startup_calls env ++ context_calls env) ++
                 (shader_calls env ++ geometry_calls env) ++ l ++ [])).
      { apply Forall_app; split; [exact Ha|].
        apply Forall_app; split; [exact Hb|].
        apply Forall_app; split; [exact Hl'|constructor]. }
      intros Hin. rewrite Forall_forall in Hall. exact (Hall _ Hin eq_refl).
  - destruct (main_no_loader env fuel Hw Hl) as (_ & T & _).
    rewrite T in H. exfalso. apply in_middle in H.
    assert (Hall : Forall (fun c => c <> C_glfwTerminate)
              (startup_calls env ++ context_calls env)).
    { forall_static env ltac:(discriminate). }
    rewrite Forall_forall in Hall. exact (Hall _ H eq_refl).
  - destruct (main_no_window env fuel Hw) as (_ & T & _).
    rewrite T in H. apply (nothing_behind_last _ _ pre post H).
    forall_static env ltac:(discriminate).
Qed.

Lemma terminate_is_last_witness :
  trace (exec (main env_ok 9) w0) =
  removelast (trace (exec (main env_ok 9) w0)) ++ [C_glfwTerminate] /\
  @nil call = [].
Proof.
  assert (H : trace (exec (main env_ok 9) w0) =
              removelast (trace (exec (main env_ok 9) w0)) ++
              C_glfwTerminate :: []) by (vm_compute; reflexivity).
  split; [exact H|].
  symmetry. exact (terminate_is_last env_ok 9 _ [] H).
Defined.

(** X3: no OpenGL function is called before the context of the created
    window is current and GLEW is initialised: in every run, each call into
    OpenGL comes after [glfwMakeContextCurrent] on the window and after
    [glewInit].  A run in which no window is created or [glewInit] fails
    makes no OpenGL call at all. *)
Theorem no_gl_without_context (env : Env) (fuel : nat)
    (pre post : list call) (c : call) :
  trace (exec (main env fuel) w0) = pre ++ c :: post ->
  is_gl c = true ->
  creates_window env = true /\ loader_ok env = true /\
  In (C_glfwMakeContextCurrent (window_ptr env)) pre /\
  In C_glewInit pre.
Proof.
  intros H Hc.
  assert (Ha : Forall (fun x => is_gl x = false)
                 (startup_calls env ++ context_calls env)).
  { forall_static env ltac:(reflexivity). }
  destruct (creates_window env) eqn:Hw; [destruct (loader_ok env) eqn:Hl|].
  - split; [reflexivity|]. split; [reflexivity|].
    destruct (main_shape env fuel Hw Hl) as (ended & frames & l & _ & T & _).
    rewrite T in H.
    destruct (split_behind _ _ _ _ _ _ H Ha) as (pre' & -> & _).
    { rewrite Hc. discriminate. }
    split; apply in_or_app; left; apply in_or_app; right;
      unfold context_calls; simpl; auto.
  - exfalso. destruct (main_no_loader env fuel Hw Hl) as (_ & T & _).
    rewrite T in H. apply in_middle in H.
    rewrite Forall_forall in Ha. rewrite (Ha _ H) in Hc. discriminate.
  - exfalso. destruct (main_no_window env fuel Hw) as (_ & T & _).
    rewrite T in H. apply in_middle in H.
    assert (Hb : Forall (fun x => is_gl x = false)
                   (startup_calls env ++ [C_glfwTerminate])).
    { forall_static env ltac:(reflexivity). }
    rewrite Forall_forall in Hb. rewrite (Hb _ H) in Hc. discriminate.
Qed.

Lemma no_gl_without_context_witness :
  In C_glewInit (firstn 8 (trace (exec (main env_ok 9) w0))).
Proof.
  apply (no_gl_without_context env_ok 9
           (firstn 8 (trace (exec (main env_ok 9) w0)))
           (skipn 9 (trace (exec (main env_ok 9) w0)))
           (C_glCreateShader GL_VERTEX_SHADER));
    vm_compute; reflexivity.
Defined.

(** X4: the program sets the viewport only in answer to a resize: in every
    run, each [glViewport] call has origin (0,0) and the size of a resize
    event that a poll delivered. *)
Theorem viewport_calls_from_resizes (env : Env) (fuel : nat)
    (x y width height : Z) :
  In (C_glViewport x y width height) (trace (exec (main env fuel) w0)) ->
  x = 0 /\ y = 0 /\
  exists n, In (EvFramebufferSize width height) (events env n).
Proof.
  set (P := fun c => forall x y width height,
              c = C_glViewport x y width height ->
              x = 0 /\ y = 0 /\
              exists n, In (EvFramebufferSize width height) (events env n)).
  assert (Hall : Forall P (trace (exec (main env fuel) w0))).
  { destruct (creates_window env) eqn:Hw; [destruct (loader_ok env) eqn:Hl|].
    - apply main_forall; try assumption.
      + forall_static env ltac:(intros ? ? ? ?; discriminate).
      + forall_static env ltac:(intros ? ? ? ?; discriminate).
      + intros ? ? ? ?; discriminate.
      + intros pressed. apply frame_calls_forall; intros ? ? ? ?; discriminate.
      + intros c (n & wd & ht & -> & Hin) x' y' w' h' E.
        injection E as <- <- <- <-. repeat split. exists n. exact Hin.
      + forall_static env ltac:(intros ? ? ? ?; discriminate).
    - destruct (main_no_loader env fuel Hw Hl) as (_ & T & _). rewrite T.
      forall_static env ltac:(intros ? ? ? ?; discriminate).
    - destruct (main_no_window env fuel Hw) as (_ & T & _). rewrite T.
      forall_static env ltac:(intros ? ? ? ?; discriminate). }
  intros Hin. rewrite Forall_forall in Hall.
  exact (Hall _ Hin x y width height eq_refl).
Qed.

Lemma viewport_calls_from_resizes_witness :
  exists n, In (EvFramebufferSize 1024 768) (events env_ok n).
Proof.
  apply (viewport_calls_from_resizes env_ok 9 0 0 1024 768).
  vm_compute. repeat (first [left; reflexivity | right]).
Defined.

Section Guard.

Variables shaderProgram VAO : Z.

Lemma guarded_no_draw (t : list call) :
  Forall (fun c => is_draw c = false) t -> draw_guarded shaderProgram VAO t.
Proof.
  intros Ht pre post mode first cnt H. exfalso.
  apply in_middle in H. rewrite Forall_forall in Ht.
  specialize (Ht _ H). discriminate Ht.
Qed.

Lemma guarded_app (a b : list call) :
  draw_guarded shaderProgram VAO a -> draw_guarded shaderProgram VAO b ->
  draw_guarded shaderProgram VAO (a ++ b).
Proof.
  intros Ha Hb pre post mode first cnt H.
  destruct (split_cases a b pre _ post H) as [(a' & E & _)|(pre' & -> & E)].
  - exact (Ha pre a' mode first cnt E).
  - destruct (Hb pre' post mode first cnt E) as (p & ->).
    exists (a ++ p). rewrite app_assoc. reflexivity.
Qed.

Lemma guarded_frame pressed window :
  draw_guarded shaderProgram VAO (frame_calls pressed window shaderProgram VAO).
Proof.
  intros pre post mode first cnt H.
  set (head := C_glfwGetKey window GLFW_KEY_ESCAPE ::
               (if pressed then [C_glfwSetWindowShouldClose window 1] else []) ++
               [C_glClearColor 0.15 0.15 0.15 1.0; C_glClear GL_COLOR_BUFFER_BIT]).
  assert (E : frame_calls pressed window shaderProgram VAO =
              (head ++ [C_glUseProgram shaderProgram; C_glBindVertexArray VAO]) ++
              [C_glDrawArrays GL_TRIANGLES 0 6; C_glfwSwapBuffers window;
               C_glfwPollEvents]).
  { unfold frame_calls, head. destruct pressed; reflexivity. }
  rewrite E in H.
  destruct (split_behind (fun c => is_draw c = false) _ _ _ _ _ H)
    as (pre' & -> & Hb).
  { unfold head. destruct pressed; cbn [app];
      repeat (apply Forall_cons; [reflexivity|]); apply Forall_nil. }
  { discriminate. }
  destruct pre' as [|z pre'].
  - exists head. rewrite app_nil_r. reflexivity.
  - exfalso. simpl in Hb. injection Hb as _ Hb. apply in_middle in Hb.
    destruct Hb as [Hb|[Hb|[]]]; discriminate Hb.
Qed.

Lemma guarded_loop env window ended frames l :
  loop_trace env window shaderProgram VAO ended frames l ->
  draw_guarded shaderProgram VAO l.
Proof.
  intros Hs. induction Hs as [| |ended frames pressed resizes rest R Hs IH].
  - apply guarded_no_draw. constructor.
  - apply guarded_no_draw. repeat constructor.
  - change (draw_guarded shaderProgram VAO
              ([C_glfwWindowShouldClose window] ++
               frame_calls pressed window shaderProgram VAO ++ resizes ++ rest)).
    apply guarded_app; [apply guarded_no_draw; repeat constructor|].
    apply guarded_app; [apply guarded_frame|].
    apply guarded_app; [|exact IH].
    apply guarded_no_draw. eapply Forall_impl; [|exact R].
    intros c (n & wd & ht & -> & _). reflexivity.
Qed.

End Guard.

(** X5: in every run, each [glDrawArrays] call comes right after
    [glUseProgram] on the program that was built and [glBindVertexArray] on
    the vertex array that was set up: nothing is drawn with another program
    or with no vertex array bound. *)
Theorem draw_is_guarded (env : Env) (fuel : nat) (pre post : list call)
    (mode first cnt : Z) :
  trace (exec (main env fuel) w0) = pre ++ C_glDrawArrays mode first cnt :: post ->
  exists pre',
    pre = pre' ++ [C_glUseProgram (create_program env);
                   C_glBindVertexArray (gen_vertex_array env)].
Proof.
  revert pre post mode first cnt.
  change (draw_guarded (create_program env) (gen_vertex_array env)
            (trace (exec (main env fuel) w0))).
  destruct (creates_window env) eqn:Hw; [destruct (loader_ok env) eqn:Hl|].
  - destruct (main_shape env fuel Hw Hl) as (ended & frames & l & Hs & T & _).
    rewrite T.
    apply guarded_app;
      [apply guarded_no_draw; forall_static env ltac:(reflexivity)|].
    apply guarded_app;
      [apply guarded_no_draw; forall_static env ltac:(reflexivity)|].
    apply guarded_app; [exact (guarded_loop _ _ _ _ _ _ _ Hs)|].
    apply guarded_no_draw. destruct ended; [|constructor].
    forall_static env ltac:(reflexivity).
  - destruct (main_no_loader env fuel Hw Hl) as (_ & T & _). rewrite T.
    apply guarded_no_draw. forall_static env ltac:(reflexivity).
  - destruct (main_no_window env fuel Hw) as (_ & T & _). rewrite T.
    apply guarded_no_draw. forall_static env ltac:(reflexivity).
Qed.

Lemma draw_is_guarded_witness :
  exists pre',
    firstn 38 (trace (exec (main env_ok 9) w0)) =
    pre' ++ [C_glUseProgram 3; C_glBindVertexArray 1].
Proof.
  apply (draw_is_guarded env_ok 9
           (firstn 38 (trace (exec (main env_ok 9) w0)))
           (skipn 39 (trace (exec (main env_ok 9) w0)))
           GL_TRIANGLES 0 6).
  vm_compute. reflexivity.
Defined.

Lemma filter_none (f : call -> bool) (t : list call) :
  Forall (fun c => f c = false) t -> filter f t = [].
Proof.
  intros H. induction H as [|c t Hc H IH]; [reflexivity|].
  simpl. rewrite Hc. exact IH.
Qed.

(** A kind of call that the loop does not make. *)
Lemma filter_loop (f : call -> bool) env window shaderProgram VAO ended frames l :
  f (C_glfwWindowShouldClose window) = false ->
  (forall pressed,
     Forall (fun c => f c = false)
            (frame_calls pressed window shaderProgram VAO)) ->
  (forall x y w h, f (C_glViewport x y w h) = false) ->
  loop_trace env window shaderProgram VAO ended frames l ->
  filter f l = [].
Proof.
  intros Hc Hf Hv Hs. apply filter_none.
  apply (loop_trace_forall env window shaderProgram VAO _ ended frames l);
    try assumption.
  intros c (n & wd & ht & -> & _). apply Hv.
Qed.

(** Computes a filter over the calls made outside the loop. *)
Ltac filter_static env :=
  unfold startup_calls, hint_calls, context_calls, shader_calls, stage_calls,
    link_calls, geometry_calls, cleanup_calls;
  cbv zeta;
  destruct (apple env);
  destruct (shader_iv env (create_shader env GL_VERTEX_SHADER) GL_COMPILE_STATUS =? 0);
  destruct (shader_iv env (create_shader env GL_FRAGMENT_SHADER) GL_COMPILE_STATUS =? 0);
  destruct (program_iv env (create_program env) GL_LINK_STATUS =? 0);
  reflexivity.

(** X6: a run that returns 0 has released every GPU object it created:
    the two shaders, the program, the vertex array and the buffer are each
    created once and deleted once, and what is deleted is the handle that
    the creation returned. *)
Theorem resources_released (env : Env) (fuel : nat) :
  value (main env fuel) w0 = Done 0 ->
  let t := trace (exec (main env fuel) w0) in
  filter creates_shader t =
    [C_glCreateShader GL_VERTEX_SHADER; C_glCreateShader GL_FRAGMENT_SHADER] /\
  filter deletes_shader t =
    [C_glDeleteShader (create_shader env GL_VERTEX_SHADER);
     C_glDeleteShader (create_shader env GL_FRAGMENT_SHADER)] /\
  filter creates_program t = [C_glCreateProgram] /\
  filter deletes_program t = [C_glDeleteProgram (create_program env)] /\
  filter creates_vertex_array t = [C_glGenVertexArrays 1] /\
  filter deletes_vertex_array t =
    [C_glDeleteVertexArrays 1 (gen_vertex_array env)] /\
  filter creates_buffer t = [C_glGenBuffers 1] /\
  filter deletes_buffer t = [C_glDeleteBuffers 1 (gen_buffer env)].
Proof.
  intros V t.
  destruct (creates_window env) eqn:Hw; [destruct (loader_ok env) eqn:Hl|].
  - destruct (main_shape env fuel Hw Hl) as (ended & frames & l & Hs & T & V' & _).
    destruct ended; [|rewrite V' in V; discriminate V].
    subst t. rewrite T.
    assert (L : forall f,
              f (C_glfwWindowShouldClose (window_ptr env)) = false ->
              (forall pressed,
                 Forall (fun c => f c = false)
                   (frame_calls pressed (window_ptr env) (create_program env)
                      (gen_vertex_array env))) ->
              (forall x y w h, f (C_glViewport x y w h) = false) ->
              filter f ((startup_calls env ++ context_calls env) ++
                        (shader_calls env ++ geometry_calls env) ++
                        l ++ cleanup_calls env) =
              filter f (startup_calls env ++ context_calls env) ++
              filter f (shader_calls env ++ geometry_calls env) ++
              filter f (cleanup_calls env)).
    { intros f Hc Hf Hv.
      rewrite (filter_app f (startup_calls env ++ context_calls env)).
      rewrite (filter_app f (shader_calls env ++ geometry_calls env)).
      rewrite (filter_app f l).
      rewrite (filter_loop f _ _ _ _ _ _ _ Hc Hf Hv Hs). reflexivity. }
    repeat split;
      (rewrite L;
       [filter_static env
       |reflexivity
       |intros pressed; apply frame_calls_forall; reflexivity
       |reflexivity]).
  - destruct (main_no_loader env fuel Hw Hl) as (V' & _).
    rewrite V' in V. discriminate V.
  - destruct (main_no_window env fuel Hw) as (V' & _).
    rewrite V' in V. discriminate V.
Qed.

Lemma resources_released_witness :
  filter deletes_program (trace (exec (main env_ok 9) w0)) =
  [C_glDeleteProgram 3].
Proof.
  apply (resources_released env_ok 9). reflexivity.
Defined.

(* ------------------------------------------------------------------ *)
(** ** The rectangle *)

Section FirstFrame.

Variable env : Env.

Local Abbreviation win := (window_ptr env).
Local Abbreviation prog := (create_program env).
Local Abbreviation vao := (gen_vertex_array env).

(** The loop of [main] is entered with the flag down, so with any fuel it
    goes through one iteration at least. *)
Lemma render_loop_first fuel w :
  should_close (sys w) = 0 ->
  exists ended frames l,
    trace (exec (render_loop env (S fuel) win prog vao) w) = trace w ++ l /\
    loop_trace env win prog vao ended (S frames) l.
Proof.
  intros H0. unfold exec. rewrite render_loop_unfold, H0. cbn [Z.eqb].
  destruct (render_loop_shape env win prog vao fuel (loop_step env win prog vao w))
    as (ended & frames & l & T & Hs & _).
  exists ended, frames. eexists. unfold exec in T. rewrite T. split.
  - unfold loop_step. rewrite body_trace.
    change (trace (exec (glfwWindowShouldClose win) w))
      with (trace w ++ [C_glfwWindowShouldClose win]).
    rewrite <- !app_assoc. cbn [app]. reflexivity.
  - constructor; [apply event_calls_resize|exact Hs].
Qed.

Lemma main_first_frame fuel :
  creates_window env = true -> loader_ok env = true -> fuel <> O ->
  exists ended frames l tail,
    loop_trace env win prog vao ended (S frames) l /\
    (tail = [] \/ tail = cleanup_calls env) /\
    trace (exec (main env fuel) w0) =
      (startup_calls env ++ context_calls env) ++
      (shader_calls env ++ geometry_calls env) ++ l ++ tail.
Proof.
  intros Hw Hl Hf. destruct fuel as [|fuel]; [contradiction|].
  destruct (render_loop_first fuel (w_loop env) eq_refl)
    as (ended & frames & l & T & Hs).
  unfold exec. rewrite (main_starts env (S fuel) Hw Hl).
  destruct (value (render_loop env (S fuel) win prog vao) (w_loop env))
    as [[]|] eqn:V.
  - pose proof (run_eta (render_loop env (S fuel) win prog vao) (w_loop env)) as R.
    rewrite V in R. rewrite (loop_and_cleanup_done env (S fuel) _ _ R).
    cbn [snd trace]. rewrite T. cbn [w_loop trace].
    exists ended, frames, l, (cleanup_calls env).
    split; [exact Hs|]. split; [right; reflexivity|].
    rewrite <- !app_assoc. reflexivity.
  - rewrite (loop_and_cleanup_timeout env (S fuel) _ V). cbn [snd].
    rewrite T. cbn [w_loop trace].
    exists ended, frames, l, []. split; [exact Hs|]. split; [left; reflexivity|].
    rewrite app_nil_r, <- !app_assoc. reflexivity.
Qed.

Lemma loop_trace_draws ended frames l :
  loop_trace env win prog vao ended frames l ->
  filter is_draw l = repeat (C_glDrawArrays GL_TRIANGLES 0 6) frames.
Proof.
  intros Hs. induction Hs as [| |ended frames pressed resizes rest R Hs IH].
  - reflexivity.
  - reflexivity.
  - change (filter is_draw
              ([C_glfwWindowShouldClose win] ++
               frame_calls pressed win prog vao ++ resizes ++ rest)
            = repeat (C_glDrawArrays GL_TRIANGLES 0 6) (S frames)).
    rewrite !filter_app, IH.
    rewrite (filter_resizes env is_draw resizes (fun _ _ _ _ => eq_refl) R).
    destruct pressed; reflexivity.
Qed.

End FirstFrame.

(** C6: in every run of [main] that gets past the loader and is given at
    least one iteration, the one upload to the buffer is the 72 bytes of
    [vertices] and the one attribute declaration is attribute 0 with 3
    floats, stride 12, offset 0, so that the buffer is read as exactly the
    six vertices (-0.5,-0.5,0), (0.5,-0.5,0), (0.5,0.5,0), (0.5,0.5,0),
    (-0.5,0.5,0), (-0.5,-0.5,0); the vertex shader given to the driver is
    [vertexShaderSource], which passes a position on with w = 1; there is
    at least one draw call and every draw call is
    [glDrawArrays GL_TRIANGLES 0 6]; and what such a call draws from that
    buffer is two triangles in the plane z = 0 of normalized device
    coordinates: a point lies in one of them exactly when it lies in the
    square of side 1 centred at the origin, and in both only when it is on
    their common diagonal. *)
Theorem rectangle_geometry (env : Env) (fuel : nat) :
  creates_window env = true -> loader_ok env = true -> fuel <> O ->
  let t := trace (exec (main env fuel) w0) in
  filter is_upload t =
    [C_glBufferData GL_ARRAY_BUFFER 72 vertices GL_STATIC_DRAW] /\
  filter is_attribute t =
    [C_glVertexAttribPointer 0 3 GL_FLOAT GL_FALSE 12 0] /\
  In (C_glShaderSource (create_shader env GL_VERTEX_SHADER) 1
        vertexShaderSource NULL) t /\
  map (vertex_of t) [0; 1; 2; 3; 4; 5; 6] =
    [Some (-0.5, -0.5, 0.0); Some (0.5, -0.5, 0.0); Some (0.5, 0.5, 0.0);
     Some (0.5, 0.5, 0.0); Some (-0.5, 0.5, 0.0); Some (-0.5, -0.5, 0.0);
     None]%Q /\
  (exists frames,
     frames <> O /\
     filter is_draw t = repeat (C_glDrawArrays GL_TRIANGLES 0 6) frames) /\
  forall mode first cnt,
    In (C_glDrawArrays mode first cnt) t ->
    mode = GL_TRIANGLES /\ first = 0 /\ cnt = 6 /\
    exists t1 t2,
      drawn_triangles t mode first cnt = [t1; t2] /\
      (forall x y, in_square 1 x y <-> inside t1 x y \/ inside t2 x y) /\
      (forall x y, inside t1 x y -> inside t2 x y -> x == y)%Q /\
      Forall (fun tri => let '(a, b, c) := tri in
                         pz a == 0 /\ pz b == 0 /\ pz c == 0)%Q [t1; t2].
Proof.
  intros Hw Hl Hf t.
  destruct (main_first_frame env fuel Hw Hl Hf)
    as (ended & frames & l & tail & Hs & Htail & T).
  assert (F : forall f,
            f (C_glfwWindowShouldClose (window_ptr env)) = false ->
            (forall pressed,
               Forall (fun c => f c = false)
                 (frame_calls pressed (window_ptr env) (create_program env)
                    (gen_vertex_array env))) ->
            (forall x y w h, f (C_glViewport x y w h) = false) ->
            filter f (cleanup_calls env) = [] ->
            filter f t =
            filter f (startup_calls env ++ context_calls env) ++
            filter f (shader_calls env ++ geometry_calls env)).
  { intros f Hc Hfr Hv Hz. subst t. rewrite T.
    rewrite (filter_app f (startup_calls env ++ context_calls env)).
    rewrite (filter_app f (shader_calls env ++ geometry_calls env)).
    rewrite (filter_app f l).
    rewrite (filter_loop f _ _ _ _ _ _ _ Hc Hfr Hv Hs).
    destruct Htail as [-> | ->]; [|rewrite Hz]; rewrite !app_nil_r;
      reflexivity. }
  assert (Hup : filter is_upload t =
                [C_glBufferData GL_ARRAY_BUFFER 72 vertices GL_STATIC_DRAW]).
  { rewrite F;
      [filter_static env
      |reflexivity
      |intros pressed; apply frame_calls_forall; reflexivity
      |reflexivity|reflexivity]. }
  assert (Hat : filter is_attribute t =
                [C_glVertexAttribPointer 0 3 GL_FLOAT GL_FALSE 12 0]).
  { rewrite F;
      [filter_static env
      |reflexivity
      |intros pressed; apply frame_calls_forall; reflexivity
      |reflexivity|reflexivity]. }
  assert (Hdr : filter is_draw t =
                repeat (C_glDrawArrays GL_TRIANGLES 0 6) (S frames)).
  { subst t. rewrite T.
    rewrite (filter_app is_draw (startup_calls env ++ context_calls env)).
    rewrite (filter_app is_draw (shader_calls env ++ geometry_calls env)).
    rewrite (filter_app is_draw l).
    rewrite (loop_trace_draws env _ _ _ Hs).
    assert (Z1 : filter is_draw (startup_calls env ++ context_calls env) = [])
      by filter_static env.
    assert (Z2 : filter is_draw (shader_calls env ++ geometry_calls env) = [])
      by filter_static env.
    assert (Z3 : filter is_draw tail = [])
      by (destruct Htail as [-> | ->]; reflexivity).
    rewrite Z1, Z2, Z3, app_nil_r. reflexivity. }
  split; [exact Hup|]. split; [exact Hat|]. split.
  { subst t. rewrite T. apply in_or_app. right. apply in_or_app. left.
    apply in_or_app. left. unfold shader_calls, stage_calls. cbv zeta.
    right. left. reflexivity. }
  split.
  { unfold vertex_of, layout, uploaded. rewrite Hup, Hat. reflexivity. }
  split.
  { exists (S frames). split; [discriminate|exact Hdr]. }
  intros mode first cnt Hin.
  assert (E : C_glDrawArrays mode first cnt = C_glDrawArrays GL_TRIANGLES 0 6).
  { apply (repeat_spec (S frames)). rewrite <- Hdr.
    apply filter_In. split; [exact Hin|reflexivity]. }
  injection E as -> -> ->.
  split; [reflexivity|]. split; [reflexivity|]. split; [reflexivity|].
  eexists _, _. split.
  { unfold drawn_triangles, vertex_of, layout, uploaded. rewrite Hup, Hat.
    vm_compute. reflexivity. }
  unfold in_square, inside, edge, px, py, pz. cbn [fst snd].
  change (1 / 2)%Q with (1 # 2)%Q.
  split; [|split].
  - intros x y. split.
    + intros (H1 & H2 & H3 & H4).
      destruct (Qlt_le_dec x y) as [L|L]; [right|left]; left;
        repeat split; lra.
    + intros [[H|H]|[H|H]]; destruct H as (H1 & H2 & H3);
        repeat split; lra.
  - intros x y [H|H] [H'|H']; destruct H as (H1 & H2 & H3);
      destruct H' as (H1' & H2' & H3'); lra.
  - repeat constructor.
Qed.

Lemma rectangle_geometry_witness :
  filter is_upload (trace (exec (main env_ok 5) w0)) =
    [C_glBufferData GL_ARRAY_BUFFER 72 vertices GL_STATIC_DRAW] /\
  exists frames,
    frames <> O /\
    filter is_draw (trace (exec (main env_ok 5) w0)) =
    repeat (C_glDrawArrays GL_TRIANGLES 0 6) frames.
Proof.
  destruct (rectangle_geometry env_ok 5 eq_refl eq_refl
              (fun E : 5%nat = O => O_S 4 (eq_sym E)))
    as (Hup & _ & _ & _ & Hdr & _).
  split; [exact Hup|exact Hdr].
Defined.

(* ------------------------------------------------------------------ *)
(** ** When the loop ends and when it does not *)

Lemma deliver_at_rest ev w :
  undisturbed [ev] -> at_rest (sys w) -> at_rest (sys (exec (deliver ev) w)).
Proof.
  intros [Hc Hk] [Hf Hs]. destruct ev as [k a|wd ht|].
  - split; [exact Hf|].
    change ((if GLFW_KEY_ESCAPE =? k then a
             else key_state (sys w) GLFW_KEY_ESCAPE) <> GLFW_PRESS).
    destruct (Z.eqb_spec GLFW_KEY_ESCAPE k) as [<-|N]; [|exact Hs].
    intros ->. apply Hk. left. reflexivity.
  - unfold deliver, invoke, framebuffer_size_callback, glViewport, exec.
    run_prog. destruct (fb_callback (sys w)) as [[]|]; run_prog;
      [destruct ((wd <? 0) || (ht <? 0)); run_prog|]; split; assumption.
  - exfalso. apply Hc. left. reflexivity.
Qed.

Lemma dispatch_at_rest evs : forall w,
  undisturbed evs -> at_rest (sys w) -> at_rest (sys (exec (dispatch evs) w)).
Proof.
  induction evs as [|ev evs IH]; intros w [Hc Hk] Hr; [exact Hr|].
  unfold exec. rewrite dispatch_cons. apply IH.
  - split; intros H; [apply Hc|apply Hk]; right; exact H.
  - apply deliver_at_rest; [|exact Hr].
    split; intros [H|[]]; [apply Hc|apply Hk]; left; exact H.
Qed.

Lemma loop_step_at_rest env window shaderProgram VAO w :
  undisturbed (events env (polls (sys w))) -> at_rest (sys w) ->
  at_rest (sys (loop_step env window shaderProgram VAO w)).
Proof.
  intros Hu [Hf Hs]. unfold loop_step, exec at 1. rewrite body_run.
  change (sys (exec (glfwWindowShouldClose window) w)) with (sys w).
  assert (E : escape_down (sys w) = false).
  { unfold escape_down. apply Z.eqb_neq. exact Hs. }
  rewrite E. apply dispatch_at_rest; [exact Hu|]. split; assumption.
Qed.

Lemma iterate_at_rest env window shaderProgram VAO :
  (forall n, undisturbed (events env n)) ->
  forall k w, at_rest (sys w) ->
    at_rest (sys (iterate env window shaderProgram VAO k w)).
Proof.
  intros Hu. induction k as [|k IH]; intros w Hr; [exact Hr|].
  cbn [iterate]. apply IH. apply loop_step_at_rest; [apply Hu|exact Hr].
Qed.

(** X7: the window stays open until somebody asks to close it: in a run
    that gets past the loader, if no poll ever delivers a close request or
    a press of Escape, then [main] does not return, however many iterations
    it is given, and the close flag stays down.  Other keys and resizes do
    not end the loop. *)
Theorem stays_open (env : Env) (fuel : nat) :
  creates_window env = true -> loader_ok env = true ->
  (forall n, undisturbed (events env n)) ->
  value (main env fuel) w0 = OutOfFuel /\
  should_close (sys (exec (main env fuel) w0)) = 0.
Proof.
  intros Hw Hl Hu.
  assert (R : forall k,
            at_rest (sys (iterate env (window_ptr env) (create_program env)
                            (gen_vertex_array env) k (w_loop env)))).
  { intros k. apply iterate_at_rest; [exact Hu|]. split; [reflexivity|].
    discriminate. }
  unfold value, exec. rewrite (main_starts env fuel Hw Hl).
  destruct (render_loop_iterate env (window_ptr env) (create_program env)
              (gen_vertex_array env) fuel (w_loop env))
    as [(k & _ & Hc & _)|(Hr & _)].
  - exfalso. apply Hc. apply (R k).
  - assert (V : value (render_loop env fuel (window_ptr env)
                         (create_program env) (gen_vertex_array env))
                      (w_loop env) = OutOfFuel).
    { unfold value. rewrite Hr. reflexivity. }
    rewrite (loop_and_cleanup_timeout env fuel _ V). unfold exec. rewrite Hr.
    split; [reflexivity|]. apply (R fuel).
Qed.

Lemma stays_open_witness :
  value (main env_idle 7) w0 = OutOfFuel.
Proof.
  apply (stays_open env_idle 7 eq_refl eq_refl).
  intros n. split; intros [H|[H|[]]]; discriminate H.
Defined.

Lemma dispatch_escape evs : forall w,
  (forall a, In (EvKey GLFW_KEY_ESCAPE a) evs -> a = GLFW_PRESS) ->
  In (EvKey GLFW_KEY_ESCAPE GLFW_PRESS) evs \/
    key_state (sys w) GLFW_KEY_ESCAPE = GLFW_PRESS ->
  key_state (sys (exec (dispatch evs) w)) GLFW_KEY_ESCAPE = GLFW_PRESS.
Proof.
  induction evs as [|ev evs IH]; intros w Ha H.
  - destruct H as [[]|H]. exact H.
  - unfold exec. rewrite dispatch_cons. apply IH.
    + intros a Hin. apply Ha. right. exact Hin.
    + destruct ev as [k a|wd ht|].
      * assert (E : key_state (sys (exec (deliver (EvKey k a)) w))
                               GLFW_KEY_ESCAPE =
                    if GLFW_KEY_ESCAPE =? k then a
                    else key_state (sys w) GLFW_KEY_ESCAPE) by reflexivity.
        rewrite E.
        destruct (Z.eqb_spec GLFW_KEY_ESCAPE k) as [<-|N].
        -- right. apply Ha. left. reflexivity.
        -- destruct H as [[H|H]|H]; [|left; exact H|right; exact H].
           injection H as H _. congruence.
      * destruct H as [[H|H]|H]; [discriminate H|left; exact H|right].
        unfold deliver, invoke, framebuffer_size_callback, glViewport, exec.
        run_prog. destruct (fb_callback (sys w)) as [[]|]; run_prog;
          [destruct ((wd <? 0) || (ht <? 0)); run_prog|]; exact H.
      * destruct H as [[H|H]|H]; [discriminate H|left; exact H|right; exact H].
Qed.

Lemma dispatch_app evs1 evs2 w :
  exec (dispatch (evs1 ++ evs2)) w = exec (dispatch evs2) (exec (dispatch evs1) w).
Proof.
  revert w. induction evs1 as [|ev evs1 IH]; intros w; [reflexivity|].
  unfold exec in *. cbn [app]. rewrite !dispatch_cons. apply IH.
Qed.

Lemma dispatch_escape_last evs w :
  escape_pressed_last evs ->
  key_state (sys (exec (dispatch evs) w)) GLFW_KEY_ESCAPE = GLFW_PRESS.
Proof.
  intros (pre & post & -> & Hpost).
  rewrite dispatch_app.
  apply dispatch_escape.
  - intros a [E|Hin].
    + injection E as <-. reflexivity.
    + exfalso. exact (Hpost a Hin).
  - left. left. reflexivity.
Qed.

(** X8: a press of Escape closes the program one frame later.  If the last
    Escape key event that poll number n delivers is a press, whatever else
    the poll delivers before or after it, the next iteration sees the key
    down and sets the close flag, and [main] returns 0 as soon as it is
    given more than n + 2 iterations. *)
Theorem escape_press_exits (env : Env) (n fuel : nat) :
  creates_window env = true -> loader_ok env = true ->
  escape_pressed_last (events env n) ->
  (n + 2 < fuel)%nat ->
  let at_check k :=
    sys (iterate env (window_ptr env) (create_program env)
           (gen_vertex_array env) k (w_loop env)) in
  escape_down (at_check (S n)) = true /\
  should_close (at_check (S (S n))) <> 0 /\
  value (main env fuel) w0 = Done 0.
Proof.
  intros Hw Hl Hlast Hf at_check.
  assert (Hd : escape_down (at_check (S n)) = true).
  { unfold at_check. rewrite iterate_snoc.
    unfold loop_step, exec at 1. rewrite body_run.
    change (sys (exec (glfwWindowShouldClose (window_ptr env)) ?w))
      with (sys w).
    rewrite iterate_polls. cbn [w_loop sys sys_ready polls Nat.add].
    unfold escape_down. apply Z.eqb_eq.
    apply dispatch_escape_last. exact Hlast. }
  assert (Hc : should_close (at_check (S (S n))) <> 0).
  { unfold at_check. rewrite iterate_snoc. unfold loop_step.
    apply body_frame. right. exact Hd. }
  split; [exact Hd|]. split; [exact Hc|].
  apply (main_returns_0 env fuel (S (S n)) Hw Hl); [lia|exact Hc].
Qed.

Lemma escape_press_exits_witness :
  value (main env_ok 5) w0 = Done 0 /\
  value (main env_release_press 4) w0 = Done 0.
Proof.
  split.
  - apply (escape_press_exits env_ok 2 5 eq_refl eq_refl); [|lia].
    exists [EvFramebufferSize 1024 768], []. split; [reflexivity|].
    intros action [].
  - apply (escape_press_exits env_release_press 0 4 eq_refl eq_refl); [|lia].
    exists [EvKey GLFW_KEY_ESCAPE GLFW_RELEASE], [EvKey 65 GLFW_PRESS].
    split; [reflexivity|].
    intros action [E|[]]. discriminate E.
Defined.

(* ------------------------------------------------------------------ *)
(** ** Viewport and output of whole runs *)

(** X9: the viewport follows the framebuffer throughout the loop.  In a
    run that gets past the loader, if no resize reports a negative size,
    then at every check of the loop condition the viewport is the whole
    framebuffer and the resize callback is registered; this is the state in
    which a run stands that is still in the loop after any number of
    iterations. *)
Theorem viewport_stays_whole (env : Env) (fuel : nat) :
  creates_window env = true -> loader_ok env = true ->
  (forall n, sane_sizes (events env n)) ->
  (forall k,
     let s := sys (iterate env (window_ptr env) (create_program env)
                     (gen_vertex_array env) k (w_loop env)) in
     viewport s = (0, 0, fst (framebuffer s), snd (framebuffer s)) /\
     fb_callback s = Some cb_framebuffer_size_callback) /\
  (value (main env fuel) w0 = OutOfFuel ->
   let s := sys (exec (main env fuel) w0) in
   s = sys (iterate env (window_ptr env) (create_program env)
              (gen_vertex_array env) fuel (w_loop env)) /\
   viewport s = (0, 0, fst (framebuffer s), snd (framebuffer s)) /\
   fb_callback s = Some cb_framebuffer_size_callback).
Proof.
  intros Hw Hl Hs.
  assert (I : forall k,
            let sk := sys (iterate env (window_ptr env) (create_program env)
                             (gen_vertex_array env) k (w_loop env)) in
            fb_callback sk = Some cb_framebuffer_size_callback /\ covers sk).
  { intros k. apply viewport_covers_framebuffer; [exact Hs| |];
      apply w_loop_covers. }
  split.
  - intros k s. destruct (I k) as (Hcb & Hc). split; [exact Hc|exact Hcb].
  - intros V s. subst s. revert V. unfold value, exec.
    rewrite (main_starts env fuel Hw Hl).
    destruct (render_loop_iterate env (window_ptr env) (create_program env)
                (gen_vertex_array env) fuel (w_loop env))
      as [(k & _ & _ & Hr)|(Hr & _)].
    + rewrite (loop_and_cleanup_done env fuel _ _ Hr). discriminate.
    + intros _.
      assert (V : value (render_loop env fuel (window_ptr env)
                           (create_program env) (gen_vertex_array env))
                        (w_loop env) = OutOfFuel).
      { unfold value. rewrite Hr. reflexivity. }
      rewrite (loop_and_cleanup_timeout env fuel _ V). unfold exec. rewrite Hr.
      cbn [snd]. destruct (I fuel) as (Hcb & Hc).
      split; [reflexivity|]. split; [exact Hc|exact Hcb].
Qed.

Lemma viewport_stays_whole_witness :
  value (main env_idle 7) w0 = OutOfFuel /\
  viewport (sys (exec (main env_idle 7) w0)) = (0, 0, 640, 480).
Proof.
  assert (H : forall n, sane_sizes (events env_idle n)).
  { intros n wd ht [E|[E|[]]]; [|discriminate E].
    injection E as <- <-. split; lia. }
  split; [reflexivity|].
  destruct (proj2 (viewport_stays_whole env_idle 7 eq_refl eq_refl H) eq_refl)
    as (_ & V & _).
  rewrite V. reflexivity.
Defined.

Lemma string_length_app (a b : string) :
  String.length (a ++ b) = (String.length a + String.length b)%nat.
Proof. induction a as [|c a IH]; simpl; [|rewrite IH]; reflexivity. Qed.

Lemma substring_length (s : string) : forall n m,
  (String.length (substring n m s) <= m)%nat.
Proof.
  induction s as [|c s IH]; intros n m.
  - destruct n, m; simpl; lia.
  - destruct n as [|n]; [destruct m as [|m]|]; simpl.
    + lia.
    + specialize (IH O m). lia.
    + apply IH.
Qed.

(** X10: a run in which both shaders compile and the program links prints
    nothing, neither to standard output nor to standard error, however
    long it runs. *)
Theorem silent_on_success (env : Env) (fuel : nat) :
  creates_window env = true -> loader_ok env = true ->
  shader_iv env (create_shader env GL_VERTEX_SHADER) GL_COMPILE_STATUS <> 0 ->
  shader_iv env (create_shader env GL_FRAGMENT_SHADER) GL_COMPILE_STATUS <> 0 ->
  program_iv env (create_program env) GL_LINK_STATUS <> 0 ->
  stdout (exec (main env fuel) w0) = "" /\
  stderr (exec (main env fuel) w0) = "".
Proof.
  intros Hw Hl Hv Hf Hp.
  destruct (main_output env fuel Hw Hl) as (Ho & He).
  split; [|exact He]. rewrite Ho.
  unfold shader_report, stage_report, link_report. cbv zeta.
  apply Z.eqb_neq in Hv, Hf, Hp. rewrite Hv, Hf, Hp. reflexivity.
Qed.

Lemma silent_on_success_witness :
  stdout (exec (main env_ok 9) w0) = "".
Proof.
  apply (silent_on_success env_ok 9 eq_refl eq_refl); discriminate.
Defined.

(** X11: what a run prints is bounded whatever the driver reports: of each
    info log at most 511 characters are printed, so standard output never
    holds more than 1661 characters (three headers, three clipped logs and
    six line feeds). *)
Theorem output_bounded (env : Env) (fuel : nat) :
  (String.length (stdout (exec (main env fuel) w0)) <= 1661)%nat.
Proof.
  destruct (creates_window env) eqn:Hw; [destruct (loader_ok env) eqn:Hl|].
  - destruct (main_output env fuel Hw Hl) as (Ho & _). rewrite Ho.
    unfold shader_report, stage_report, link_report. cbv zeta.
    pose proof (substring_length
                  (shader_info_log env (create_shader env GL_VERTEX_SHADER))
                  0 511) as L1.
    pose proof (substring_length
                  (shader_info_log env (create_shader env GL_FRAGMENT_SHADER))
                  0 511) as L2.
    pose proof (substring_length
                  (program_info_log env (create_program env)) 0 511) as L3.
    fold (clip (shader_info_log env (create_shader env GL_VERTEX_SHADER))) in L1.
    fold (clip (shader_info_log env (create_shader env GL_FRAGMENT_SHADER))) in L2.
    fold (clip (program_info_log env (create_program env))) in L3.
    revert L1 L2 L3.
    generalize (clip (shader_info_log env (create_shader env GL_VERTEX_SHADER))).
    generalize (clip (shader_info_log env (create_shader env GL_FRAGMENT_SHADER))).
    generalize (clip (program_info_log env (create_program env))).
    intros lp lf lv L1 L2 L3.
    destruct (shader_iv env (create_shader env GL_VERTEX_SHADER) GL_COMPILE_STATUS =? 0);
    destruct (shader_iv env (create_shader env GL_FRAGMENT_SHADER) GL_COMPILE_STATUS =? 0);
    destruct (program_iv env (create_program env) GL_LINK_STATUS =? 0);
    rewrite ?string_length_app;
    change (String.length "ERROR::SHADER::VERTEX::COMPILATION_FAILED") with 41%nat;
    change (String.length "ERROR::SHADER::FRAGMENT::COMPILATION_FAILED") with 43%nat;
    change (String.length "ERROR::SHADER::PROGRAM::LINKING_FAILED") with 38%nat;
    change (String.length nl) with 1%nat;
    change (String.length "") with O; lia.
  - destruct (main_no_loader env fuel Hw Hl) as (_ & _ & O & _). rewrite O.
    vm_compute. lia.
  - destruct (main_no_window env fuel Hw) as (_ & _ & O & _). rewrite O.
    vm_compute. lia.
Qed.

(** X12: info logs are fetched for what failed and for nothing else.  In a
    run that gets past the loader, the calls that fetch an info log are, in
    this order, one for the vertex shader if its compile status is 0, one
    for the fragment shader if its compile status is 0, and one for the
    program if its link status is 0, each with a buffer size of 512. *)
Theorem info_logs_fetched_on_failure (env : Env) (fuel : nat) :
  creates_window env = true -> loader_ok env = true ->
  let vertexShader := create_shader env GL_VERTEX_SHADER in
  let fragmentShader := create_shader env GL_FRAGMENT_SHADER in
  let shaderProgram := create_program env in
  filter diagnostic (trace (exec (main env fuel) w0)) =
  (if shader_iv env vertexShader GL_COMPILE_STATUS =? 0
   then [C_glGetShaderInfoLog vertexShader 512] else []) ++
  (if shader_iv env fragmentShader GL_COMPILE_STATUS =? 0
   then [C_glGetShaderInfoLog fragmentShader 512] else []) ++
  (if program_iv env shaderProgram GL_LINK_STATUS =? 0
   then [C_glGetProgramInfoLog shaderProgram 512] else []).
Proof.
  intros Hw Hl. cbv zeta.
  destruct (main_shape env fuel Hw Hl) as (ended & frames & l & Hs & T & _).
  rewrite T.
  rewrite (filter_app diagnostic (startup_calls env ++ context_calls env)).
  rewrite (filter_app diagnostic (shader_calls env ++ geometry_calls env)).
  rewrite (filter_app diagnostic l).
  rewrite (filter_loop diagnostic _ _ _ _ _ _ _ eq_refl
             (fun pressed => frame_calls_forall _ pressed _ _ _
                eq_refl eq_refl eq_refl eq_refl eq_refl eq_refl eq_refl
                eq_refl eq_refl)
             (fun _ _ _ _ => eq_refl) Hs).
  assert (Z : filter diagnostic (if ended then cleanup_calls env else []) = []).
  { destruct ended; reflexivity. }
  rewrite Z. filter_static env.
Qed.

Lemma info_logs_fetched_on_failure_witness :
  filter diagnostic (trace (exec (main env_broken_fragment 5) w0)) =
  [C_glGetShaderInfoLog 2 512].
Proof.
  apply (info_logs_fetched_on_failure env_broken_fragment 5 eq_refl eq_refl).
Defined.

(** X13: the two failures of the start-up.  When [glfwCreateWindow] returns
    no window, [main] prints one line, calls [glfwTerminate] and nothing
    else, and returns -1; when the window is there and [glewInit] fails,
    [main] prints one line right after [glewInit], calls nothing more, and
    returns -1.  Neither path writes to standard error. *)
Theorem init_failure_paths (env : Env) (fuel : nat) :
  (creates_window env = false ->
   value (main env fuel) w0 = Done (-1) /\
   calls_of (main env fuel) w0 =
     startup_calls env ++ [C_glfwTerminate] /\
   stdout (exec (main env fuel) w0) = ("Failed to create GLFW window" ++ nl)%string /\
   stderr (exec (main env fuel) w0) = "") /\
  (creates_window env = true -> loader_ok env = false ->
   value (main env fuel) w0 = Done (-1) /\
   calls_of (main env fuel) w0 =
     startup_calls env ++
     [C_glfwMakeContextCurrent (window_ptr env);
      C_glfwSetFramebufferSizeCallback (window_ptr env)
        cb_framebuffer_size_callback;
      C_glewInit] /\
   stdout (exec (main env fuel) w0) = ("Failed to initialize GLEW" ++ nl)%string /\
   stderr (exec (main env fuel) w0) = "").
Proof.
  split.
  - intros Hw. destruct (main_no_window env fuel Hw) as (V & T & O & E).
    repeat split; assumption.
  - intros Hw Hl. destruct (main_no_loader env fuel Hw Hl) as (V & T & O & E).
    repeat split; assumption.
Qed.

Lemma init_failure_paths_witness :
  stdout (exec (main env_no_loader 5) w0) = ("Failed to initialize GLEW" ++ nl)%string /\
  stdout (exec (main env_no_glfw 5) w0) = ("Failed to create GLFW window" ++ nl)%string.
Proof.
  split.
  - apply (proj2 (init_failure_paths env_no_loader 5) eq_refl eq_refl).
  - apply (proj1 (init_failure_paths env_no_glfw 5) eq_refl).
Defined.
